(** * The Kia UVO USA client: session guard, login, status and commands

    A shallow embedding of [custom_components/kia_uvo/KiaUvoAPIUSA.py] and
    of the constructor of [KiaUvoApiImpl.py].

    Python objects decoded from JSON are values of [Json]; exceptions are
    values of [Exn]; every function of the client that talks to the
    network, sleeps, logs or mutates a Token is a computation in the
    monad [M], which threads a [World] and keeps the world reached when
    an exception is raised (Python does not roll back side effects). *)

From Stdlib Require Import ZArith List String Ascii Bool Lia DecimalString.
From stdpp Require Import base option list.
Import ListNotations.
Local Open Scope string_scope.
Local Open Scope list_scope.

Notation "s +:+ t" := (String.append s t)
  (at level 60, right associativity) : string_scope.

(** ** Python values *)

Local Set Warnings "-register-all".

(** What [response.json()] yields, and what the client builds as request
    bodies.  A dict is an association list in insertion order.  Numbers
    are the integers; JSON numbers with a fraction are left out. *)
Inductive Json : Type :=
| JNull
| JBool (b : bool)
| JInt (z : Z)
| JStr (s : string)
| JList (l : list Json)
| JDict (d : list (string * Json)).

Abbreviation Dict := (list (string * Json)).

(** The exceptions the client can see.  [AuthError] is the class declared
    at the top of the file; [RequestException] is the class of the
    [requests] library it derives from; [ConnectionError] stands for the
    transport failures [requests.get/post] raise themselves;
    [JSONDecodeError] is what [response.json()] raises; [PyException] is
    the builtin [Exception] that [login] raises; [InvalidHeader] is what
    [requests] raises, before it sends anything, for a header it will
    not send. *)
Inductive Exn : Type :=
| AuthError
| RequestException
| ConnectionError
| InvalidHeader
| JSONDecodeError
| PyException
| KeyError (k : string)
| IndexError
| TypeError
| AttributeError
| ValueError.

Inductive Result (A : Type) : Type :=
| Returns (a : A)
| Raises (e : Exn).
Arguments Returns {A} a.
Arguments Raises {A} e.

Definition rbind {A B} (r : Result A) (f : A -> Result B) : Result B :=
  match r with
  | Returns a => f a
  | Raises e => Raises e
  end.

Declare Scope res_scope.
Delimit Scope res_scope with res.
Notation "x <- c ;; k" := (rbind c (fun x => k))
  (at level 100, c at next level, right associativity) : res_scope.

(** [except AuthError]: the only handler of the file. *)
Definition is_AuthError (e : Exn) : bool :=
  match e with AuthError => true | _ => false end.

(** *** Dictionaries *)

Fixpoint dict_get (k : string) (d : Dict) : option Json :=
  match d with
  | [] => None
  | (k', v) :: d' => if String.eqb k k' then Some v else dict_get k d'
  end.

(** [d[k] = v]: an existing key keeps its place, a new one goes last. *)
Fixpoint dict_set (k : string) (v : Json) (d : Dict) : Dict :=
  match d with
  | [] => [(k, v)]
  | (k', v') :: d' =>
      if String.eqb k k' then (k', v) :: d' else (k', v') :: dict_set k v d'
  end.

(** *** Builtin operations on values *)

(** Truth value of an object, as [if x] and [not x] take it. *)
Definition truthy (v : Json) : bool :=
  match v with
  | JNull => false
  | JBool b => b
  | JInt z => negb (Z.eqb z 0)
  | JStr s => negb (String.eqb s "")
  | JList l => match l with [] => false | _ => true end
  | JDict d => match d with [] => false | _ => true end
  end.

(** [v == n] for an integer literal [n]; [True == 1] and [False == 0]
    hold in Python. *)
Definition py_eq_int (v : Json) (n : Z) : bool :=
  match v with
  | JInt z => Z.eqb z n
  | JBool b => Z.eqb (if b then 1 else 0) n
  | _ => false
  end.

(** [v[k]] with a string key. *)
Definition subscript (v : Json) (k : string) : Result Json :=
  match v with
  | JDict d =>
      match dict_get k d with
      | Some x => Returns x
      | None => Raises (KeyError k)
      end
  | _ => Raises TypeError
  end.

(** [v[0]]. *)
Definition index0 (v : Json) : Result Json :=
  match v with
  | JList (x :: _) => Returns x
  | JList [] => Raises IndexError
  | JStr (String c _) => Returns (JStr (String c EmptyString))
  | JStr EmptyString => Raises IndexError
  | JDict _ => Raises (KeyError "0")
  | _ => Raises TypeError
  end.

(** [v.get(k, dflt)]. *)
Definition py_get (v : Json) (k : string) (dflt : Json) : Result Json :=
  match v with
  | JDict d => Returns (default dflt (dict_get k d))
  | _ => Raises AttributeError
  end.

(** [v[k] = x]. *)
Definition setitem (v : Json) (k : string) (x : Json) : Result Json :=
  match v with
  | JDict d => Returns (JDict (dict_set k x d))
  | _ => Raises TypeError
  end.

(** [all(x == 0 for x in v.values())]. *)
Definition all_values_zero (v : Json) : Result bool :=
  match v with
  | JDict d => Returns (forallb (fun kv => py_eq_int (snd kv) 0) d)
  | _ => Raises AttributeError
  end.

(** ** The runtime the file relies on

    Number and date formatting are the interpreter's; the constant
    [DATE_FORMAT] comes from [const.py].  They are parameters of the
    development. *)
Record Runtime : Type := {
  strftime : string -> Z -> string;   (* format, seconds since the epoch *)
  DATE_FORMAT : string;
  tm_gmtoff : Z;                      (* time.localtime().tm_gmtoff *)
  py_str : Json -> string;            (* str(x) *)
  py_int : Json -> Result Json;       (* int(x) *)
  py_float : Json -> Result Json;     (* float(x) *)
}.

(** ** Tokens *)

(** Modelled from the spec: the class [Token] of [Token.py], which is
    not among the sources.  A Token holds the access identifier, the
    vehicle registration identifier, the vehicle identifiers, the
    validity-until timestamp and a freshness stamp, next to the refresh
    token that [login] sets to [None].  A field is [None] here until it
    is assigned. *)
Record Token : Type := mkToken {
  access_token : option Json;
  refresh_token : option Json;
  device_id : option Json;
  vehicle_name : option Json;
  vehicle_id : option Json;
  vehicle_regid : option Json;
  vehicle_model : option Json;
  vehicle_registration_date : option Json;
  valid_until : option Json;
  stamp : option Json;
}.

(** Modelled from the spec: [Token({})], a freshly constructed Token,
    all fields empty. *)
Definition Token_unset : Token :=
  mkToken None None None None None None None None None None.

(** Modelled from the spec: [token.set(...)], which populates the
    Token wholesale; its ten positional parameters are in the order in
    which [login] passes them (the session identifier first, the vehicle
    key as registration identifier, as the comments of [login] say). *)
Definition Token_set (access refresh device name id regid model regdate valid stmp : Json)
  : Token :=
  mkToken (Some access) (Some refresh) (Some device) (Some name) (Some id)
          (Some regid) (Some model) (Some regdate) (Some valid) (Some stmp).

(** A Token every field of which has been assigned; the other state
    the spec lets a caller observe is [Token_unset]. *)
Definition fully_populated (t : Token) : Prop :=
  is_Some (access_token t) /\ is_Some (refresh_token t) /\
  is_Some (device_id t) /\ is_Some (vehicle_name t) /\
  is_Some (vehicle_id t) /\ is_Some (vehicle_regid t) /\
  is_Some (vehicle_model t) /\ is_Some (vehicle_registration_date t) /\
  is_Some (valid_until t) /\ is_Some (stamp t).

(** Modelled from the spec: reading an attribute; a field that was
    never assigned reads as empty. *)
Definition attr (f : Token -> option Json) (t : Token) : Json :=
  default JNull (f t).

(** ** The client object *)

(** The attributes [KiaUvoApiImpl.__init__] and [KiaUvoAPIUSA.__init__]
    assign.  The configuration values are whatever the caller passed. *)
Record Client : Type := mkClient {
  username : Json;
  password : Json;
  pin : Json;
  use_email_with_geocode_api : Json;
  stamps : Json;
  region : Json;
  brand : Json;
  client_device_id : string;
  BASE_URL : string;
  API_URL : string;
}.

(** ** Keyword arguments

    The decorated request functions are always called with keywords;
    the decorators see them as the dict [kwargs].  A Token and a dict
    (a request body, or the headers [lock_action] passes) are passed by
    reference; a string is passed as it is. *)
Abbreviation addr := nat.

Abbreviation Headers := (list (string * Json)).

Inductive Arg : Type :=
| ATok (a : addr)
| AStr (s : string)
| ADict (a : addr).

Abbreviation Kwargs := (list (string * Arg)).

Fixpoint kw_get (k : string) (kw : Kwargs) : option Arg :=
  match kw with
  | [] => None
  | (k', v) :: kw' => if String.eqb k k' then Some v else kw_get k kw'
  end.

(** [kwargs[k]]. *)
Definition kw_item (k : string) (kw : Kwargs) : Result Arg :=
  match kw_get k kw with
  | Some v => Returns v
  | None => Raises (KeyError k)
  end.

(** Calling [def f(self, p1, ..., pn)] as [f(self, **kwargs)]: a keyword
    that names no parameter, or a parameter left without a value, is a
    [TypeError] raised before the body runs. *)
Definition bind_params (params : list string) (kw : Kwargs) : Result unit :=
  if forallb (fun kv => existsb (String.eqb (fst kv)) params) kw
     && forallb (fun p => match kw_get p kw with Some _ => true | None => false end)
                params
  then Returns tt
  else Raises TypeError.

(** ** The world *)

Inductive Level : Type := Debug | Error.

(** One constructor per [_LOGGER] call of the file, with the values its
    f-string interpolates. *)
Inductive LogMsg : Type :=
| LRepair                              (* got invalid session, attempting to repair and resend *)
| LOldNewToken (old new : Json)        (* old token:..., new token:... *)
| LSending (url : Arg)                 (* sending {url} request *)
| LGotResponse (text : string)         (* got response {response.text} *)
| LSessionInvalid                      (* error: session invalid *)
| LUnknownError (text : string)        (* error: unknown error response ... *)
| LSignInResponse (text : string)
| LGotSessionId (sid : string)
| LGetVehiclesResponse (text : string)
| LActionForLock (action : Json)
| LCallingLock
| LCallingUnlock.

Inductive Method : Type := GET | POST.

(** The four places of the file that call [requests]. *)
Inductive Site : Type :=
| InPostRequest        (* post_request_with_logging_and_active_session *)
| InGetRequest         (* get_request_with_logging_and_active_session *)
| InLoginAuth          (* login: prof/authUser *)
| InLoginVehicles.     (* login: ownr/gvl *)

Inductive Event : Type :=
| ELog (lvl : Level) (msg : LogMsg)
| ESleep (seconds : Z)
| ERequest (site : Site) (m : Method) (url : string)
           (body : option Json) (headers : Headers).

(** A decoded HTTP response: [text], [headers] and what [json()] gives
    ([None] when the body is not JSON). *)
Record Response : Type := mkResponse {
  text : string;
  resp_headers : list (string * string);
  json : option Json;
}.

(** What the backend does with a request: answer, or fail in transport. *)
Inductive Reply : Type :=
| Answer (r : Response)
| Unreachable.

(** [script n] is the backend's reaction to the [n]-th request of the
    run; [served] counts the requests made so far; [trace] records what
    the client did, oldest first; [now] is the clock in seconds, which
    only [time.sleep] moves; [tokens] and [dicts] hold the Token
    instances and the dicts that are passed by reference. *)
Record World : Type := mkWorld {
  script : nat -> Reply;
  served : nat;
  trace : list Event;
  now : Z;
  tokens : list Token;
  dicts : list Dict;
}.

(** ** Computations *)

Definition M (A : Type) : Type := World -> Result A * World.

Definition ret {A} (a : A) : M A := fun w => (Returns a, w).

Definition raise {A} (e : Exn) : M A := fun w => (Raises e, w).

Definition bind {A B} (m : M A) (f : A -> M B) : M B :=
  fun w =>
    match m w with
    | (Returns a, w') => f a w'
    | (Raises e, w') => (Raises e, w')
    end.

(** [try: m except AuthError: h]. *)
Definition try_except_AuthError {A} (m : M A) (h : M A) : M A :=
  fun w =>
    match m w with
    | (Raises e, w') => if is_AuthError e then h w' else (Raises e, w')
    | r => r
    end.

Definition lift {A} (r : Result A) : M A := fun w => (r, w).

Declare Scope m_scope.
Delimit Scope m_scope with M.
Notation "x <- c ;; k" := (bind c (fun x => k))
  (at level 100, c at next level, right associativity) : m_scope.
Notation "c ;; k" := (bind c (fun _ => k))
  (at level 100, k at level 200, right associativity) : m_scope.

(** The world after the events [evs] were added to its trace. *)
Definition record (evs : list Event) (w : World) : World :=
  mkWorld (script w) (served w) (trace w ++ evs) (now w) (tokens w) (dicts w).

Definition emit (e : Event) : M unit :=
  fun w => (Returns tt, record [e] w).

Definition log (lvl : Level) (msg : LogMsg) : M unit := emit (ELog lvl msg).

(** [time.sleep(s)]. *)
Definition sleep (s : Z) : M unit :=
  fun w => (Returns tt,
            mkWorld (script w) (served w) (trace w ++ [ESleep s])
                    (now w + s)%Z (tokens w) (dicts w)).

Definition clock : M Z := fun w => (Returns (now w), w).

(** The world after a request went out. *)
Definition sent (request : Event) (w : World) : World :=
  mkWorld (script w) (S (served w)) (trace w ++ [request]) (now w)
          (tokens w) (dicts w).

(** What [requests] makes of the value of a header when it prepares a
    request: a value that is [None] is left out, a string is sent, and a
    value of any other type is refused.  Every string is taken to be
    header text, with no line break in it and no blank in front. *)
Definition header_value_ok (v : Json) : bool :=
  match v with
  | JNull | JStr _ => true
  | _ => false
  end.

Definition headers_ok (headers : Headers) : bool :=
  forallb (fun kv => header_value_ok (snd kv)) headers.

(** [requests.post] and [requests.get]: when the headers are fit to be
    sent the request goes out, and the backend's reaction comes back;
    otherwise InvalidHeader is raised and nothing is sent.  The event
    records the headers as they were passed. *)
Definition requests_send (site : Site) (m : Method) (url : string)
    (body : option Json) (headers : Headers) : M Response :=
  fun w =>
    if headers_ok headers then
      let w' := sent (ERequest site m url body headers) w in
      match script w (served w) with
      | Answer r => (Returns r, w')
      | Unreachable => (Raises ConnectionError, w')
      end
    else (Raises InvalidHeader, w).

(** [response.json()]. *)
Definition response_json (r : Response) : Result Json :=
  match json r with
  | Some j => Returns j
  | None => Raises JSONDecodeError
  end.

(** Header names of a response are matched without regard to case. *)
Definition lower_ascii (c : ascii) : ascii :=
  let n := nat_of_ascii c in
  if (65 <=? n)%nat && (n <=? 90)%nat then ascii_of_nat (n + 32) else c.

Fixpoint lower (s : string) : string :=
  match s with
  | EmptyString => EmptyString
  | String c s' => String (lower_ascii c) (lower s')
  end.

Fixpoint header_get (k : string) (h : list (string * string)) : option string :=
  match h with
  | [] => None
  | (k', v) :: h' =>
      if String.eqb (lower k) (lower k') then Some v else header_get k h'
  end.

(** [response.headers[k]]: the headers are a case-insensitive dict,
    which looks the lower-cased name up and, when it is not there,
    raises the KeyError of that lookup. *)
Definition header_item (k : string) (r : Response) : Result string :=
  match header_get k (resp_headers r) with
  | Some v => Returns v
  | None => Raises (KeyError (lower k))
  end.

(** *** The heap

    An address is the position of an instance in the heap.  Python has
    no dangling reference; an address the heap does not hold reads as
    an unset Token (an empty dict) and is not written. *)

Definition read_token (a : addr) : M Token :=
  fun w => (Returns (default Token_unset (tokens w !! a)), w).

Definition write_token (a : addr) (t : Token) : M unit :=
  fun w => (Returns tt,
            mkWorld (script w) (served w) (trace w) (now w)
                    (<[a := t]> (tokens w)) (dicts w)).

(** A new Token instance. *)
Definition new_token (t : Token) : M addr :=
  fun w => (Returns (length (tokens w)),
            mkWorld (script w) (served w) (trace w) (now w)
                    (tokens w ++ [t]) (dicts w)).

Definition read_dict (a : addr) : M Dict :=
  fun w => (Returns (default [] (dicts w !! a)), w).

Definition write_dict (a : addr) (d : Dict) : M unit :=
  fun w => (Returns tt,
            mkWorld (script w) (served w) (trace w) (now w)
                    (tokens w) (<[a := d]> (dicts w))).

(** A dict display [{...}] evaluated by a caller. *)
Definition new_dict (d : Dict) : M addr :=
  fun w => (Returns (length (dicts w)),
            mkWorld (script w) (served w) (trace w) (now w)
                    (tokens w) (dicts w ++ [d])).

(** Attribute access on whatever was passed as [token]. *)
Definition get_attr (tok : Arg) (f : Token -> option Json) : M Json :=
  match tok with
  | ATok a => (t <- read_token a ;; ret (attr f t))%M
  | _ => raise AttributeError
  end.

Definition with_access_token (v : Json) (t : Token) : Token :=
  mkToken (Some v) (refresh_token t) (device_id t) (vehicle_name t)
          (vehicle_id t) (vehicle_regid t) (vehicle_model t)
          (vehicle_registration_date t) (valid_until t) (stamp t).

Definition with_vehicle_regid (v : Json) (t : Token) : Token :=
  mkToken (access_token t) (refresh_token t) (device_id t) (vehicle_name t)
          (vehicle_id t) (Some v) (vehicle_model t)
          (vehicle_registration_date t) (valid_until t) (stamp t).

Definition with_valid_until (v : Json) (t : Token) : Token :=
  mkToken (access_token t) (refresh_token t) (device_id t) (vehicle_name t)
          (vehicle_id t) (vehicle_regid t) (vehicle_model t)
          (vehicle_registration_date t) (Some v) (stamp t).

(** [tok.field = v]. *)
Definition set_attr (tok : Arg) (upd : Json -> Token -> Token) (v : Json) : M unit :=
  match tok with
  | ATok a => (t <- read_token a ;; write_token a (upd v t))%M
  | _ => raise AttributeError
  end.

(** ** Construction *)

(** [KiaUvoApiImpl.__init__(self, username, password, pin, region, brand,
    use_email_with_geocode_api)]. *)
Definition KiaUvoApiImpl_init
    (username password pin region brand use_email_with_geocode_api : Json)
  : Client :=
  {| username := username;
     password := password;
     pin := pin;
     use_email_with_geocode_api := use_email_with_geocode_api;
     stamps := JNull;
     region := region;
     brand := brand;
     client_device_id := "";
     BASE_URL := "";
     API_URL := "" |}.

(** The three assignments that follow [super().__init__] in
    [KiaUvoAPIUSA.__init__]. *)
Definition with_endpoints (self : Client) (device base api : string) : Client :=
  mkClient (username self) (password self) (pin self)
           (use_email_with_geocode_api self) (stamps self) (region self)
           (brand self) device base api.

(** [KiaUvoAPIUSA.__init__(self, username, password, region, brand,
    use_email_with_geocode_api=False, pin="")].  [rnd1] and [rnd2] are the
    draws of [random.choice] and of [secrets.token_urlsafe]. *)
Definition KiaUvoAPIUSA_init
    (username password region brand : Json)
    (use_email_with_geocode_api pin : option Json) (rnd1 rnd2 : string)
  : Client :=
  let use_email_with_geocode_api :=
    default (JBool false) use_email_with_geocode_api in
  let pin := default (JStr "") pin in
  let self :=
    KiaUvoApiImpl_init username password region brand
                       use_email_with_geocode_api pin in
  let base := "api.owners.kia.com" in
  with_endpoints self (rnd1 +:+ ":" +:+ rnd2) base
                 ("https://" +:+ base +:+ "/apigw/v1/").

Section USA.

Variable rt : Runtime.

(** ** Headers *)

(** The dict [api_headers] builds when the clock reads [t]. *)
Definition api_headers_at (self : Client) (t : Z) : Headers :=
  let offset := Z.quot (tm_gmtoff rt) 3600 in
  let headers :=
    [("content-type", JStr "application/json;charset=UTF-8");
     ("accept", JStr "application/json, text/plain, */*");
     ("accept-encoding", JStr "gzip, deflate, br");
     ("accept-language", JStr "en-US,en;q=0.9");
     ("apptype", JStr "L");
     ("appversion", JStr "4.10.0");
     ("clientid", JStr "MWAMOBILE");
     ("from", JStr "SPA");
     ("host", JStr (BASE_URL self));
     ("language", JStr "0");
     ("offset", JStr (py_str rt (JInt offset)));
     ("ostype", JStr "Android");
     ("osversion", JStr "11");
     ("secretkey", JStr "98er-w34rf-ibf3-3f6h");
     ("to", JStr "APIGW");
     ("tokentype", JStr "G");
     ("user-agent", JStr "okhttp/3.12.1")] in
  let date := strftime rt "%a, %d %b %Y %H:%M:%S GMT" t in
  let headers := dict_set "date" (JStr date) headers in
  let headers := dict_set "deviceid" (JStr (client_device_id self)) headers in
  headers.

Definition api_headers (self : Client) : M Headers :=
  (t <- clock ;;
   ret (api_headers_at self t))%M.

Definition authed_api_headers (self : Client) (token : Arg) : M Headers :=
  (headers <- api_headers self ;;
   sid <- get_attr token access_token ;;
   let headers := dict_set "sid" sid headers in
   vinkey <- get_attr token vehicle_regid ;;
   let headers := dict_set "vinkey" vinkey headers in
   ret headers)%M.

(** ** Login *)

(** The fields [login] reads from the first vehicle of the list. *)
Record VehicleSummary : Type := mkSummary {
  vs_name : Json;
  vs_id : Json;
  vs_vin : Json;
  vs_key : Json;
  vs_model : Json;
  vs_registration_date : Json;
}.

(** Lines 177-184 of [login]. *)
Definition first_vehicle (response : Response) : Result VehicleSummary :=
  (response <- response_json response ;;
   payload <- subscript response "payload" ;;
   summaries <- subscript payload "vehicleSummary" ;;
   vehicle_summary <- index0 summaries ;;
   vehicle_name <- subscript vehicle_summary "nickName" ;;
   vehicle_id <- subscript vehicle_summary "vehicleIdentifier" ;;
   vehicle_vin <- subscript vehicle_summary "vin" ;;
   vehicle_key <- subscript vehicle_summary "vehicleKey" ;;
   vehicle_model <- subscript vehicle_summary "modelName" ;;
   vehicle_registration_date <-
     py_get vehicle_summary "enrollmentDate" (JStr "missing") ;;
   Returns (mkSummary vehicle_name vehicle_id vehicle_vin vehicle_key
                      vehicle_model vehicle_registration_date))%res.

Definition login (self : Client) : M addr :=
  (let username := username self in
   let password := password self in
   let url := API_URL self +:+ "prof/authUser" in
   let data :=
     JDict [("deviceKey", JStr "");
            ("deviceType", JInt 2);
            ("userCredential",
             JDict [("userId", username); ("password", password)])] in
   headers <- api_headers self ;;
   response <- requests_send InLoginAuth POST url (Some data) headers ;;
   log Debug (LSignInResponse (text response)) ;;
   match header_get "sid" (resp_headers response) with
   | None => raise PyException
   | Some session_id =>
       if String.eqb session_id "" then raise PyException else
       log Debug (LGotSessionId session_id) ;;
       let url := API_URL self +:+ "ownr/gvl" in
       headers <- api_headers self ;;
       let headers := dict_set "sid" (JStr session_id) headers in
       response <- requests_send InLoginVehicles GET url None headers ;;
       log Debug (LGetVehiclesResponse (text response)) ;;
       v <- lift (first_vehicle response) ;;
       t <- clock ;;
       let valid_until :=
         strftime rt (DATE_FORMAT rt) (t + tm_gmtoff rt + 3600)%Z in
       token <- new_token Token_unset ;;
       write_token token
         (Token_set (JStr session_id) JNull (vs_vin v) (vs_name v) (vs_id v)
                    (vs_key v) (vs_model v) (vs_registration_date v)
                    (JStr valid_until) (JStr "NoStamp")) ;;
       ret token
   end)%M.

(** ** The two decorators *)

(** [response_json["status"][k]]. *)
Definition status_field (response_json : Json) (k : string) : Result Json :=
  (status <- subscript response_json "status" ;; subscript status k)%res.

(** Lines 56-68: what [request_with_logging_wrapper] does with the
    response once [func] has returned it. *)
Definition check_response (response : Response) : M Response :=
  (log Debug (LGotResponse (text response)) ;;
   response_json <- lift (response_json response) ;;
   code <- lift (status_field response_json "statusCode") ;;
   if py_eq_int code 0 then ret response else
   code <- lift (status_field response_json "statusCode") ;;
   session_invalid <-
     (if py_eq_int code 1 then
        error_type <- lift (status_field response_json "errorType") ;;
        if py_eq_int error_type 1 then
          error_code <- lift (status_field response_json "errorCode") ;;
          ret (py_eq_int error_code 1003)
        else ret false
      else ret false) ;;
   if session_invalid : bool then
     log Debug LSessionInvalid ;;
     raise AuthError
   else
     log Error (LUnknownError (text response)) ;;
     raise RequestException)%M.

Definition request_with_logging (func : Client -> Kwargs -> M Response)
  : Client -> Kwargs -> M Response :=
  fun self kwargs =>
    (url <- lift (kw_item "url" kwargs) ;;
     log Debug (LSending url) ;;
     response <- func self kwargs ;;
     check_response response)%M.

Definition request_with_active_session (func : Client -> Kwargs -> M Response)
  : Client -> Kwargs -> M Response :=
  fun self kwargs =>
    try_except_AuthError (func self kwargs)
      (log Debug LRepair ;;
       token <- lift (kw_item "token" kwargs) ;;
       new_token <- login self ;;
       old <- get_attr token access_token ;;
       new <- get_attr (ATok new_token) access_token ;;
       log Debug (LOldNewToken old new) ;;
       set_attr token with_access_token new ;;
       regid <- get_attr (ATok new_token) vehicle_regid ;;
       set_attr token with_vehicle_regid regid ;;
       valid <- get_attr (ATok new_token) valid_until ;;
       set_attr token with_valid_until valid ;;
       match kw_get "json_body" kwargs with
       | None => ret tt
       | Some (ADict json_body) =>
           d <- read_dict json_body ;;
           if truthy (default JNull (dict_get "vinKey" d)) then
             regid <- get_attr token vehicle_regid ;;
             write_dict json_body (dict_set "vinKey" (JList [regid]) d)
           else ret tt
       | Some _ => raise AttributeError
       end ;;
       response <- func self kwargs ;;
       ret response)%M.

(** ** The two request functions *)

(** The body of [post_request_with_logging_and_active_session], before
    decoration.  [requests] prepares the URL, then the headers, then the
    body: it turns down a [url] that is not a string with one of its own
    exceptions, headers that are not fit to be sent with InvalidHeader,
    and a body that it cannot serialise with a TypeError; every string
    is taken to be a URL of the backend. *)
Definition post_request (self : Client) (kwargs : Kwargs) : M Response :=
  (lift (bind_params ["token"; "url"; "json_body"] kwargs) ;;
   token <- lift (kw_item "token" kwargs) ;;
   url <- lift (kw_item "url" kwargs) ;;
   json_body <- lift (kw_item "json_body" kwargs) ;;
   headers <- authed_api_headers self token ;;
   match url with
   | AStr url =>
       match json_body with
       | ADict json_body =>
           d <- read_dict json_body ;;
           requests_send InPostRequest POST url (Some (JDict d)) headers
       | AStr s => requests_send InPostRequest POST url (Some (JStr s)) headers
       | ATok _ =>
           if headers_ok headers then raise TypeError else raise InvalidHeader
       end
   | _ => raise RequestException
   end)%M.

(** The body of [get_request_with_logging_and_active_session], before
    decoration. *)
Definition get_request (self : Client) (kwargs : Kwargs) : M Response :=
  (lift (bind_params ["token"; "url"] kwargs) ;;
   token <- lift (kw_item "token" kwargs) ;;
   url <- lift (kw_item "url" kwargs) ;;
   headers <- authed_api_headers self token ;;
   match url with
   | AStr url => requests_send InGetRequest GET url None headers
   | _ => raise RequestException
   end)%M.

Definition post_request_with_logging_and_active_session
  : Client -> Kwargs -> M Response :=
  request_with_active_session (request_with_logging post_request).

Definition get_request_with_logging_and_active_session
  : Client -> Kwargs -> M Response :=
  request_with_active_session (request_with_logging get_request).

(** ** Cached vehicle status *)

(** [vehicle_data["vehicleStatus"][k]]. *)
Definition status_item (vehicle_data : Json) (k : string) : Result Json :=
  (vehicle_status <- subscript vehicle_data "vehicleStatus" ;;
   subscript vehicle_status k)%res.

(** [vehicle_data["vehicleStatus"][k] = x].  The inner dict is shared
    with [vehicle_data], so the assignment shows in it. *)
Definition status_assign (vehicle_data : Json) (k : string) (x : Json)
  : Result Json :=
  (vehicle_status <- subscript vehicle_data "vehicleStatus" ;;
   vehicle_status <- setitem vehicle_status k x ;;
   setitem vehicle_data "vehicleStatus" vehicle_status)%res.

(** [response_body["payload"]["vehicleInfoList"][0]]. *)
Definition vehicle_info (response_body : Json) : Result Json :=
  (payload <- subscript response_body "payload" ;;
   l <- subscript payload "vehicleInfoList" ;;
   index0 l)%res.

(** Lines 234-289 of [get_cached_vehicle_status]: from the decoded
    response body to the returned [vehicle_data]. *)
Definition normalize (response_body : Json) : Result Json :=
  (info <- vehicle_info response_body ;;
   last <- subscript info "lastVehicleInfo" ;;
   rpt <- subscript last "vehicleStatusRpt" ;;
   vehicle_status <- subscript rpt "vehicleStatus" ;;
   info <- vehicle_info response_body ;;
   config <- subscript info "vehicleConfig" ;;
   detail <- subscript config "vehicleDetail" ;;
   vehicle <- subscript detail "vehicle" ;;
   mileage <- subscript vehicle "mileage" ;;
   value <- py_float rt mileage ;;
   info <- vehicle_info response_body ;;
   last <- subscript info "lastVehicleInfo" ;;
   location <- subscript last "location" ;;
   let vehicle_data :=
     JDict [("vehicleStatus", vehicle_status);
            ("odometer", JDict [("value", value); ("unit", JInt 3)]);
            ("vehicleLocation", location)] in
   sync <- status_item vehicle_data "syncDate" ;;
   utc <- subscript sync "utc" ;;
   vehicle_data <- status_assign vehicle_data "time" utc ;;
   door <- status_item vehicle_data "doorStatus" ;;
   vehicle_data <- status_assign vehicle_data "doorOpen" door ;;
   door <- status_item vehicle_data "doorStatus" ;;
   trunk <- subscript door "trunk" ;;
   vehicle_data <- status_assign vehicle_data "trunkOpen" trunk ;;
   door <- status_item vehicle_data "doorStatus" ;;
   hood <- subscript door "hood" ;;
   vehicle_data <- status_assign vehicle_data "hoodOpen" hood ;;
   tire <- status_item vehicle_data "tirePressure" ;;
   all <- subscript tire "all" ;;
   vehicle_data <-
     status_assign vehicle_data "tirePressureLamp"
                   (JDict [("tirePressureLampAll", all)]) ;;
   climate <- status_item vehicle_data "climate" ;;
   air_ctrl <- subscript climate "airCtrl" ;;
   vehicle_data <- status_assign vehicle_data "airCtrlOn" air_ctrl ;;
   climate <- status_item vehicle_data "climate" ;;
   defrost <- subscript climate "defrost" ;;
   vehicle_data <- status_assign vehicle_data "defrost" defrost ;;
   climate <- status_item vehicle_data "climate" ;;
   heating <- subscript climate "heatingAccessory" ;;
   rear_window <- subscript heating "rearWindow" ;;
   vehicle_data <- status_assign vehicle_data "sideBackWindowHeat" rear_window ;;
   climate <- status_item vehicle_data "climate" ;;
   heating <- subscript climate "heatingAccessory" ;;
   side_mirror <- subscript heating "sideMirror" ;;
   vehicle_data <- status_assign vehicle_data "sideMirrorHeat" side_mirror ;;
   climate <- status_item vehicle_data "climate" ;;
   heating <- subscript climate "heatingAccessory" ;;
   steering_wheel <- subscript heating "steeringWheel" ;;
   vehicle_data <- status_assign vehicle_data "steerWheelHeat" steering_wheel ;;
   climate <- status_item vehicle_data "climate" ;;
   air_temp <- subscript climate "airTemp" ;;
   vehicle_data <- status_assign vehicle_data "airTemp" air_temp ;;
   Returns vehicle_data)%res.

Definition get_cached_vehicle_status (self : Client) (token : addr) : M Json :=
  (let url := API_URL self +:+ "cmm/gvi" in
   t <- read_token token ;;
   body <-
     new_dict
       [("vehicleConfigReq",
         JDict [("airTempRange", JStr "0");
                ("maintenance", JStr "0");
                ("seatHeatCoolOption", JStr "0");
                ("vehicle", JStr "1");
                ("vehicleFeature", JStr "0")]);
        ("vehicleInfoReq",
         JDict [("drivingActivty", JStr "0");
                ("dtc", JStr "1");
                ("enrollment", JStr "1");
                ("functionalCards", JStr "0");
                ("location", JStr "1");
                ("vehicleStatus", JStr "1");
                ("weather", JStr "0")]);
        ("vinKey", JList [attr vehicle_regid t])] ;;
   response <-
     post_request_with_logging_and_active_session self
       [("token", ATok token); ("url", AStr url); ("json_body", ADict body)] ;;
   response_body <- lift (response_json response) ;;
   lift (normalize response_body))%M.

(** ** Commands *)

Definition update_vehicle_status (self : Client) (token : addr) : M unit :=
  (let url := API_URL self +:+ "rems/rvs" in
   body <- new_dict [("requestType", JInt 0)] ;;
   post_request_with_logging_and_active_session self
     [("token", ATok token); ("url", AStr url); ("json_body", ADict body)] ;;
   ret tt)%M.

(** The [while not completed] loop of [check_action_status].  The loop
    has no bound in the source; [fuel] bounds the iterations that are
    run here, and [None] says that the loop was still going. *)
Fixpoint poll (fuel : nat) (self : Client) (token : addr) (xid : string)
  : M (option bool) :=
  match fuel with
  | O => ret None
  | S fuel' =>
      (sleep 10 ;;
       let url := API_URL self +:+ "cmm/gts" in
       body <- new_dict [("xid", JStr xid)] ;;
       response <-
         post_request_with_logging_and_active_session self
           [("token", ATok token); ("url", AStr url);
            ("json_body", ADict body)] ;;
       response_json <- lift (response_json response) ;;
       payload <- lift (subscript response_json "payload") ;;
       completed <- lift (all_values_zero payload) ;;
       if completed : bool then ret (Some completed)
       else poll fuel' self token xid)%M
  end.

Definition check_action_status (fuel : nat) (self : Client) (token : addr)
    (xid : string) : M (option bool) :=
  (sleep 15 ;;
   poll fuel self token xid)%M.

(** What a command leaves to its caller: it returns nothing once the
    poll is over. *)
Definition finished (r : option bool) : option unit :=
  match r with Some _ => Some tt | None => None end.

(** [action == "close"]. *)
Definition is_close (action : Json) : bool :=
  match action with JStr s => String.eqb s "close" | _ => false end.

Definition lock_action (fuel : nat) (self : Client) (token : addr)
    (action : Json) : M (option unit) :=
  (log Debug (LActionForLock action) ;;
   url <-
     (if is_close action then
        log Debug LCallingLock ;; ret (API_URL self +:+ "rems/door/lock")
      else
        log Debug LCallingUnlock ;; ret (API_URL self +:+ "rems/door/unlock")) ;;
   headers <- authed_api_headers self (ATok token) ;;
   headers <- new_dict headers ;;
   response <-
     get_request_with_logging_and_active_session self
       [("token", ATok token); ("url", AStr url); ("headers", ADict headers)] ;;
   xid <- lift (header_item "Xid" response) ;;
   r <- check_action_status fuel self token xid ;;
   ret (finished r))%M.

Definition start_climate (fuel : nat) (self : Client) (token : addr)
    (set_temp duration defrost climate heating : Json) : M (option unit) :=
  (let url := API_URL self +:+ "rems/start" in
   rear_window <- lift (py_int rt heating) ;;
   side_mirror <- lift (py_int rt heating) ;;
   steering_wheel <- lift (py_int rt heating) ;;
   body <-
     new_dict
       [("remoteClimate",
         JDict [("airCtrl", climate);
                ("airTemp",
                 JDict [("unit", JInt 1);
                        ("value", JStr (py_str rt set_temp))]);
                ("defrost", defrost);
                ("heatingAccessory",
                 JDict [("rearWindow", rear_window);
                        ("sideMirror", side_mirror);
                        ("steeringWheel", steering_wheel)]);
                ("ignitionOnDuration",
                 JDict [("unit", JInt 4); ("value", duration)])])] ;;
   response <-
     post_request_with_logging_and_active_session self
       [("token", ATok token); ("url", AStr url); ("json_body", ADict body)] ;;
   xid <- lift (header_item "Xid" response) ;;
   r <- check_action_status fuel self token xid ;;
   ret (finished r))%M.

Definition stop_climate (fuel : nat) (self : Client) (token : addr)
  : M (option unit) :=
  (let url := API_URL self +:+ "rems/stop" in
   response <-
     get_request_with_logging_and_active_session self
       [("token", ATok token); ("url", AStr url)] ;;
   xid <- lift (header_item "Xid" response) ;;
   r <- check_action_status fuel self token xid ;;
   ret (finished r))%M.

Definition start_charge (fuel : nat) (self : Client) (token : addr)
  : M (option unit) :=
  (let url := API_URL self +:+ "evc/charge" in
   body <- new_dict [("chargeRatio", JInt 100)] ;;
   response <-
     post_request_with_logging_and_active_session self
       [("token", ATok token); ("url", AStr url); ("json_body", ADict body)] ;;
   xid <- lift (header_item "Xid" response) ;;
   r <- check_action_status fuel self token xid ;;
   ret (finished r))%M.

Definition stop_charge (fuel : nat) (self : Client) (token : addr)
  : M (option unit) :=
  (let url := API_URL self +:+ "evc/cancel" in
   response <-
     get_request_with_logging_and_active_session self
       [("token", ATok token); ("url", AStr url)] ;;
   xid <- lift (header_item "Xid" response) ;;
   r <- check_action_status fuel self token xid ;;
   ret (finished r))%M.

(** The two methods of the USA client that are left empty. *)
Definition get_location (self : Client) (token : addr) : M unit := ret tt.

Definition get_pin_token (self : Client) (token : addr) : M unit := ret tt.

(** ** Reverse geocoding ([KiaUvoApiImpl.py]) *)

(** [v == True]. *)
Definition py_eq_true (v : Json) : bool :=
  match v with
  | JBool b => b
  | JInt z => Z.eqb z 1
  | _ => false
  end.

(** ["&email=" + v]: only a string can be appended to a string. *)
Definition str_plus (s : string) (v : Json) : Result string :=
  match v with
  | JStr t => Returns (s +:+ t)
  | _ => Raises TypeError
  end.

(** Lines 45-56 of [get_geocoded_location]: the URL that is asked for. *)
Definition geocode_url (self : Client) (lat lon : Json) : Result string :=
  (email_parameter <-
     (if py_eq_true (use_email_with_geocode_api self)
      then str_plus "&email=" (username self)
      else Returns "") ;;
   Returns ("https://nominatim.openstreetmap.org/reverse?lat="
            +:+ py_str rt lat
            +:+ "&lon="
            +:+ py_str rt lon
            +:+ "&format=json&addressdetails=1&zoom=18"
            +:+ email_parameter))%res.

(** [get_geocoded_location]: the geocoder is another server than the
    vendor's; [nominatim] gives its reaction to the URL asked for. *)
Definition get_geocoded_location (self : Client) (lat lon : Json)
    (nominatim : string -> Reply) : Result Json :=
  (url <- geocode_url self lat lon ;;
   match nominatim url with
   | Answer response => response_json response
   | Unreachable => Raises ConnectionError
   end)%res.

End USA.

(** * Statements *)

(** A response envelope whose three status fields are the integers
    [c], [t] and [e]. *)
Definition envelope (r : Response) (c t e : Z) : Prop :=
  exists rj,
    json r = Some rj /\
    status_field rj "statusCode" = Returns (JInt c) /\
    status_field rj "errorType" = Returns (JInt t) /\
    status_field rj "errorCode" = Returns (JInt e).

(** The envelope the backend sends for an expired session. *)
Definition session_invalid (r : Response) : Prop := envelope r 1 1 1003.

(** The two requests of [login], as they leave a client whose clock
    reads [t]. *)
Definition auth_request (rt : Runtime) (self : Client) (t : Z) : Event :=
  ERequest InLoginAuth POST (API_URL self +:+ "prof/authUser")
    (Some (JDict [("deviceKey", JStr "");
                  ("deviceType", JInt 2);
                  ("userCredential",
                   JDict [("userId", username self);
                          ("password", password self)])]))
    (api_headers_at rt self t).

Definition vehicles_request (rt : Runtime) (self : Client) (t : Z)
    (session_id : string) : Event :=
  ERequest InLoginVehicles GET (API_URL self +:+ "ownr/gvl") None
    (dict_set "sid" (JStr session_id) (api_headers_at rt self t)).

(** The Token [login] builds from a session identifier and a vehicle,
    when the clock reads [t]. *)
Definition login_token (rt : Runtime) (session_id : string)
    (v : VehicleSummary) (t : Z) : Token :=
  Token_set (JStr session_id) JNull (vs_vin v) (vs_name v) (vs_id v)
    (vs_key v) (vs_model v) (vs_registration_date v)
    (JStr (strftime rt (DATE_FORMAT rt) (t + tm_gmtoff rt + 3600)%Z))
    (JStr "NoStamp").

(** The world a successful [login] leaves. *)
Definition logged_in (rt : Runtime) (self : Client) (r1 r2 : Response)
    (session_id : string) (v : VehicleSummary) (w : World) : World :=
  mkWorld (script w) (S (S (served w)))
    (trace w ++
       [auth_request rt self (now w);
        ELog Debug (LSignInResponse (text r1));
        ELog Debug (LGotSessionId session_id);
        vehicles_request rt self (now w) session_id;
        ELog Debug (LGetVehiclesResponse (text r2))])
    (now w)
    (tokens w ++ [login_token rt session_id v (now w)])
    (dicts w).

(** The headers of an authenticated call made in world [w] with the
    Token at [tok]. *)
Definition authed_headers (rt : Runtime) (self : Client) (w : World)
    (tok : addr) : Headers :=
  let t := default Token_unset (tokens w !! tok) in
  dict_set "vinkey" (attr vehicle_regid t)
    (dict_set "sid" (attr access_token t) (api_headers_at rt self (now w))).

(** The Token at [tok] can be sent as it is in world [w]: its access
    token and its registration identifier are header values that
    [requests] does not refuse. *)
Definition sendable (w : World) (tok : addr) : bool :=
  let t := default Token_unset (tokens w !! tok) in
  header_value_ok (attr access_token t) &&
  header_value_ok (attr vehicle_regid t).

(** The request a POST call, or a GET call, puts on the wire in world
    [w]. *)
Definition post_event (rt : Runtime) (self : Client) (w : World)
    (tok : addr) (url : string) (b : addr) : Event :=
  ERequest InPostRequest POST url (Some (JDict (default [] (dicts w !! b))))
           (authed_headers rt self w tok).

Definition get_event (rt : Runtime) (self : Client) (w : World)
    (tok : addr) (url : string) : Event :=
  ERequest InGetRequest GET url None (authed_headers rt self w tok).

(** The world once a call was announced in the log and sent. *)
Definition attempted (request : Event) (url : string) (w : World) : World :=
  sent request (record [ELog Debug (LSending (AStr url))] w).

(** What the logging wrapper makes of the backend's reaction. *)
Definition outcome_of (reply : Reply) : M Response :=
  match reply with
  | Answer r => check_response r
  | Unreachable => raise ConnectionError
  end.

(** The world after an assignment to the Token at [a], and to the dict
    at [b]. *)
Definition stored (a : addr) (t : Token) (w : World) : World :=
  mkWorld (script w) (served w) (trace w) (now w) (<[a := t]> (tokens w))
          (dicts w).

Definition filed (b : addr) (d : Dict) (w : World) : World :=
  mkWorld (script w) (served w) (trace w) (now w) (tokens w)
          (<[b := d]> (dicts w)).

(** A Token after the guard copied the fresh credentials into it. *)
Definition refreshed (access regid valid : Json) (t : Token) : Token :=
  with_valid_until valid (with_vehicle_regid regid (with_access_token access t)).

(** The world in which the guard re-issues a call: the first attempt
    [request] was answered by [r1] with a session-invalid envelope, the
    login was answered by [r2] and [r3], the Token at [tok] (which was
    [t0]) has the fresh credentials, the new Token instance sits at the
    end of the heap, and the request-body dicts are [ds]. *)
Definition refreshed_world (rt : Runtime) (self : Client) (tok : addr)
    (url : string) (request : Event) (r1 r2 r3 : Response) (sid : string)
    (v : VehicleSummary) (t0 : Token) (ds : list Dict) (w : World) : World :=
  let fresh := login_token rt sid v (now w) in
  mkWorld (script w) (S (S (S (served w))))
    (trace w ++
       [ELog Debug (LSending (AStr url));
        request;
        ELog Debug (LGotResponse (text r1));
        ELog Debug LSessionInvalid;
        ELog Debug LRepair;
        auth_request rt self (now w);
        ELog Debug (LSignInResponse (text r2));
        ELog Debug (LGotSessionId sid);
        vehicles_request rt self (now w) sid;
        ELog Debug (LGetVehiclesResponse (text r3));
        ELog Debug (LOldNewToken (attr access_token t0) (JStr sid))])
    (now w)
    (<[tok := refreshed (JStr sid) (vs_key v) (attr valid_until fresh) t0]>
       (tokens w) ++ [fresh])
    ds.


(** Requests in a trace, weighted by the place that made them. *)
Definition weigh (weight : Site -> nat) (e : Event) : nat :=
  match e with
  | ERequest site _ _ _ _ => weight site
  | _ => 0
  end.

Fixpoint tally (weight : Site -> nat) (evs : list Event) : nat :=
  match evs with
  | [] => 0
  | e :: evs' => weigh weight e + tally weight evs'
  end.

(** [m] adds requests of total weight at most [n] to the trace,
    whatever the world it starts in and however it ends. *)
Definition costs (weight : Site -> nat) {A} (n : nat) (m : M A) : Prop :=
  forall w,
    tally weight (trace (snd (m w))) <= tally weight (trace w) + n.

(** Transport attempts of the wrapped call, and logins begun. *)
Definition attempt_weight (site : Site) : nat :=
  match site with InPostRequest | InGetRequest => 1 | _ => 0 end.

Definition login_weight (site : Site) : nat :=
  match site with InLoginAuth => 1 | _ => 0 end.

Definition attempts : list Event -> nat := tally attempt_weight.

Definition logins : list Event -> nat := tally login_weight.

(** The bodies of the POST calls of a trace, oldest first. *)
Fixpoint bodies_sent (evs : list Event) : list (option Json) :=
  match evs with
  | [] => []
  | ERequest InPostRequest _ _ body _ :: evs' => body :: bodies_sent evs'
  | _ :: evs' => bodies_sent evs'
  end.

(** What a trace shows of time and traffic: the sleeps and the
    requests, without their headers and without the log lines. *)
Inductive Step : Type :=
| Sleeps (seconds : Z)
| Sends (site : Site) (url : string) (body : option Json).

Fixpoint steps (evs : list Event) : list Step :=
  match evs with
  | [] => []
  | ESleep s :: evs' => Sleeps s :: steps evs'
  | ERequest site _ url body _ :: evs' => Sends site url body :: steps evs'
  | ELog _ _ :: evs' => steps evs'
  end.

(** A command-status payload: sub-checks and their numeric codes. *)
Definition codes_payload (codes : list (string * Z)) : Dict :=
  map (fun kc => (fst kc, JInt (snd kc))) codes.

Definition all_zero (codes : list (string * Z)) : bool :=
  forallb (fun kc => Z.eqb (snd kc) 0) codes.

(** A successful answer of the command-status endpoint that carries
    the sub-checks [codes]. *)
Definition status_answer (r : Response) (codes : list (string * Z)) : Prop :=
  exists rj,
    json r = Some rj /\
    status_field rj "statusCode" = Returns (JInt 0) /\
    subscript rj "payload" = Returns (JDict (codes_payload codes)).

(** One round of the poller, as the trace shows it. *)
Definition poll_round (self : Client) (xid : string) : list Step :=
  [Sleeps 10;
   Sends InPostRequest (API_URL self +:+ "cmm/gts")
         (Some (JDict [("xid", JStr xid)]))].

(** The world after [time.sleep(s)], and after a dict display. *)
Definition slept (s : Z) (w : World) : World :=
  mkWorld (script w) (served w) (trace w ++ [ESleep s]) (now w + s)%Z
          (tokens w) (dicts w).

Definition allocated (d : Dict) (w : World) : World :=
  mkWorld (script w) (served w) (trace w) (now w) (tokens w) (dicts w ++ [d]).

(** The world after one round of the poller that was answered by [r]
    with status code 0. *)
Definition polled (rt : Runtime) (self : Client) (token : addr)
    (xid : string) (r : Response) (w : World) : World :=
  let w1 := allocated [("xid", JStr xid)] (slept 10 w) in
  record [ELog Debug (LGotResponse (text r))]
    (attempted
       (post_event rt self w1 token (API_URL self +:+ "cmm/gts")
                   (length (dicts w)))
       (API_URL self +:+ "cmm/gts") w1).

(** What the four working commands do once their request was accepted
    with the handle [xid] in the response headers: the handle goes to
    the poller, and the command ends when the poller does. *)
Definition await (rt : Runtime) (self : Client) (fuel : nat) (token : addr)
    (xid : string) : M (option unit) :=
  bind (check_action_status rt fuel self token xid)
       (fun r => ret (finished r)).

(** What [normalize] reads from a response body, in the order in which
    it reads it. *)
Record Sections : Type := mkSections {
  sec_status : Dict;          (* ...["vehicleStatusRpt"]["vehicleStatus"] *)
  sec_odometer : Json;        (* float(...["vehicle"]["mileage"]) *)
  sec_location : Json;        (* ...["lastVehicleInfo"]["location"] *)
  sec_utc : Json;             (* ["syncDate"]["utc"] *)
  sec_door : Json;            (* ["doorStatus"] *)
  sec_trunk : Json;           (* ["doorStatus"]["trunk"] *)
  sec_hood : Json;            (* ["doorStatus"]["hood"] *)
  sec_tire_all : Json;        (* ["tirePressure"]["all"] *)
  sec_air_ctrl : Json;        (* ["climate"]["airCtrl"] *)
  sec_defrost : Json;         (* ["climate"]["defrost"] *)
  sec_rear_window : Json;     (* ["climate"]["heatingAccessory"]["rearWindow"] *)
  sec_side_mirror : Json;     (* ["climate"]["heatingAccessory"]["sideMirror"] *)
  sec_steering_wheel : Json;  (* ["climate"]["heatingAccessory"]["steeringWheel"] *)
  sec_air_temp : Json;        (* ["climate"]["airTemp"] *)
}.

(** [v[k1][k2]] and [v[k1][k2][k3]]. *)
Definition item2 (v : Json) (k1 k2 : string) : Result Json :=
  (x <- subscript v k1 ;; subscript x k2)%res.

Definition item3 (v : Json) (k1 k2 k3 : string) : Result Json :=
  (x <- subscript v k1 ;; y <- subscript x k2 ;; subscript y k3)%res.

(** The sections a response body must hold for [normalize] to go
    through: each line is one read of the source, on the body as the
    backend sent it. *)
Definition sections (rt : Runtime) (response_body : Json) : Result Sections :=
  (info <- vehicle_info response_body ;;
   vehicle_status <- item3 info "lastVehicleInfo" "vehicleStatusRpt" "vehicleStatus" ;;
   mileage <- (x <- item3 info "vehicleConfig" "vehicleDetail" "vehicle" ;;
               subscript x "mileage") ;;
   value <- py_float rt mileage ;;
   location <- item2 info "lastVehicleInfo" "location" ;;
   utc <- item2 vehicle_status "syncDate" "utc" ;;
   door <- subscript vehicle_status "doorStatus" ;;
   trunk <- subscript door "trunk" ;;
   hood <- subscript door "hood" ;;
   all <- item2 vehicle_status "tirePressure" "all" ;;
   air_ctrl <- item2 vehicle_status "climate" "airCtrl" ;;
   defrost <- item2 vehicle_status "climate" "defrost" ;;
   rear_window <- item3 vehicle_status "climate" "heatingAccessory" "rearWindow" ;;
   side_mirror <- item3 vehicle_status "climate" "heatingAccessory" "sideMirror" ;;
   steering_wheel <-
     item3 vehicle_status "climate" "heatingAccessory" "steeringWheel" ;;
   air_temp <- item2 vehicle_status "climate" "airTemp" ;;
   match vehicle_status with
   | JDict d =>
       Returns (mkSections d value location utc door trunk hood all air_ctrl
                           defrost rear_window side_mirror steering_wheel
                           air_temp)
   | _ => Raises TypeError
   end)%res.

(** The record [normalize] returns when all sections are there: the
    vendor's status dict with eleven keys added, the odometer and the
    location. *)
Definition normalized_status (s : Sections) : Dict :=
  dict_set "airTemp" (sec_air_temp s)
  (dict_set "steerWheelHeat" (sec_steering_wheel s)
  (dict_set "sideMirrorHeat" (sec_side_mirror s)
  (dict_set "sideBackWindowHeat" (sec_rear_window s)
  (dict_set "defrost" (sec_defrost s)
  (dict_set "airCtrlOn" (sec_air_ctrl s)
  (dict_set "tirePressureLamp"
            (JDict [("tirePressureLampAll", sec_tire_all s)])
  (dict_set "hoodOpen" (sec_hood s)
  (dict_set "trunkOpen" (sec_trunk s)
  (dict_set "doorOpen" (sec_door s)
  (dict_set "time" (sec_utc s) (sec_status s))))))))))).

Definition normalized (s : Sections) : Json :=
  JDict [("vehicleStatus", JDict (normalized_status s));
         ("odometer", JDict [("value", sec_odometer s); ("unit", JInt 3)]);
         ("vehicleLocation", sec_location s)].

(** [m] takes every world to one that is related to it by [R],
    however it ends. *)
Definition keeps (R : World -> World -> Prop) {A} (m : M A) : Prop :=
  forall w, R w (snd (m w)).

(** The clock did not move. *)
Definition same_time (w w' : World) : Prop := now w' = now w.

(** The clock did not go back. *)
Definition not_earlier (w w' : World) : Prop := (now w <= now w')%Z.

(** No Token instance went away, and the instances that were there are
    as they were, but for the one that [spared] names (if it names a
    Token at all). *)
Definition others_untouched (spared : option Arg) (w w' : World) : Prop :=
  length (tokens w) <= length (tokens w') /\
  forall a, spared <> Some (ATok a) -> a < length (tokens w) ->
            tokens w' !! a = tokens w !! a.

(** The body [get_cached_vehicle_status] asks [cmm/gvi] with, for a
    Token whose registration identifier is [regid]. *)
Definition status_request (regid : Json) : Dict :=
  [("vehicleConfigReq",
    JDict [("airTempRange", JStr "0");
           ("maintenance", JStr "0");
           ("seatHeatCoolOption", JStr "0");
           ("vehicle", JStr "1");
           ("vehicleFeature", JStr "0")]);
   ("vehicleInfoReq",
    JDict [("drivingActivty", JStr "0");
           ("dtc", JStr "1");
           ("enrollment", JStr "1");
           ("functionalCards", JStr "0");
           ("location", JStr "1");
           ("vehicleStatus", JStr "1");
           ("weather", JStr "0")]);
   ("vinKey", JList [regid])].

(** A reaction of the backend that ends a call with the exception [e]
    without the guard stepping in: no connection, or an error envelope
    other than the session-invalid one. *)
Definition fatal (reply : Reply) (e : Exn) : Prop :=
  (reply = Unreachable /\ e = ConnectionError) \/
  (exists r c t e',
     reply = Answer r /\ envelope r c t e' /\ c <> 0%Z /\
     ~ (c = 1 /\ t = 1 /\ e' = 1003)%Z /\ e = RequestException).

(** A call that [requests] refused before anything was sent: it raised
    InvalidHeader, with no request made and the Tokens as they were in
    [w]. *)
Definition refused (w : World) {A} (out : Result A * World) : Prop :=
  fst out = Raises InvalidHeader /\
  served (snd out) = served w /\
  tokens (snd out) = tokens w.

(** [r[k]] for the record a call returned. *)
Definition subscript_result (r : Result Json) (k : string) : Result Json :=
  rbind r (fun v => subscript v k).

(** The eleven keys [normalize] writes into the vendor's status dict. *)
Definition added_keys : list string :=
  ["time"; "doorOpen"; "trunkOpen"; "hoodOpen"; "tirePressureLamp";
   "airCtrlOn"; "defrost"; "sideBackWindowHeat"; "sideMirrorHeat";
   "steerWheelHeat"; "airTemp"].

(** ** Sample data *)

(** A runtime for the examples: dates print as the format followed by
    the seconds, integers in decimal. *)
Definition decimal (z : Z) : string := NilZero.string_of_int (Z.to_int z).

Definition sample_runtime : Runtime :=
  {| strftime := fun fmt t => fmt +:+ "@" +:+ decimal t;
     DATE_FORMAT := "%Y-%m-%d %H:%M:%S.%f";
     tm_gmtoff := (-18000)%Z;
     py_str := fun v =>
       match v with JInt z => decimal z | JStr s => s | _ => "" end;
     py_int := fun v =>
       match v with
       | JInt z => Returns (JInt z)
       | JBool b => Returns (JInt (if b then 1 else 0))
       | _ => Raises TypeError
       end;
     py_float := fun v =>
       match v with
       | JInt z => Returns (JInt z)
       | _ => Raises TypeError
       end |}.

Definition sample_client : Client :=
  KiaUvoAPIUSA_init (JStr "driver@example.com") (JStr "hunter2") (JInt 3)
                    (JInt 1) None (Some (JStr "0000")) "Zx81" "q7".

(** A backend that plays the replies of [l] in order and is unreachable
    afterwards. *)
Definition script_of (l : list Reply) : nat -> Reply :=
  fun n => nth n l Unreachable.

Definition sample_world (l : list Reply) (toks : list Token)
    (ds : list Dict) : World :=
  mkWorld (script_of l) 0 [] 1700000000 toks ds.

(** A response with the given status triple, payload and headers. *)
Definition reply_with (c t e : Z) (payload : Json)
    (hdrs : list (string * string)) : Reply :=
  Answer
    (mkResponse "..." hdrs
       (Some (JDict [("status",
                      JDict [("statusCode", JInt c);
                             ("errorType", JInt t);
                             ("errorCode", JInt e)]);
                     ("payload", payload)]))).

Definition sample_token : Token :=
  Token_set (JStr "sid-0") JNull (JStr "VIN0") (JStr "car") (JStr "id0")
            (JStr "key0") (JStr "EV6") (JStr "2021") (JStr "later")
            (JStr "NoStamp").

(** The two answers a login needs: a session identifier in the headers
    of the first, a vehicle list in the body of the second. *)
Definition sample_auth_response : Response :=
  mkResponse "{}" [("Content-Type", "application/json"); ("Sid", "sid-1")]
             (Some (JDict [])).

Definition sample_vehicle : Dict :=
  [("nickName", JStr "My EV6");
   ("vehicleIdentifier", JStr "id1");
   ("vin", JStr "VIN1");
   ("vehicleKey", JStr "key1");
   ("modelName", JStr "EV6")].

Definition sample_vehicles_response : Response :=
  mkResponse "{...}" []
    (Some (JDict [("payload",
                   JDict [("vehicleSummary",
                           JList [JDict sample_vehicle;
                                  JDict [("nickName", JStr "other")]])])])).

(** A cached-status body: the vendor's status dict [vs] inside the
    envelope that [cmm/gvi] answers with. *)
Definition status_body (vs : Dict) : Json :=
  JDict
    [("status",
      JDict [("statusCode", JInt 0); ("errorType", JInt 0);
             ("errorCode", JInt 0)]);
     ("payload",
      JDict
        [("vehicleInfoList",
          JList
            [JDict
               [("lastVehicleInfo",
                 JDict
                   [("vehicleStatusRpt", JDict [("vehicleStatus", JDict vs)]);
                    ("location",
                     JDict [("coord", JDict [("lat", JInt 47);
                                             ("lon", JInt 8)])])]);
                ("vehicleConfig",
                 JDict
                   [("vehicleDetail",
                     JDict [("vehicle",
                             JDict [("mileage", JInt 12345)])])])]])])].

Definition sample_status_without_tires : Dict :=
  [("syncDate", JDict [("utc", JStr "20211018070626")]);
   ("doorStatus",
    JDict [("frontLeft", JInt 0); ("trunk", JInt 0); ("hood", JInt 0)]);
   ("climate",
    JDict [("airCtrl", JBool false);
           ("defrost", JBool false);
           ("airTemp", JDict [("value", JStr "72"); ("unit", JInt 1)]);
           ("heatingAccessory",
            JDict [("rearWindow", JInt 0); ("sideMirror", JInt 0);
                   ("steeringWheel", JInt 0)])])].

Definition sample_status : Dict :=
  sample_status_without_tires ++ [("tirePressure", JDict [("all", JInt 0)])].

(** A backend that answers every request the same way: the session is
    invalid, though the answer also carries what a login looks for. *)
Definition stubborn_response : Response :=
  mkResponse "{...}" [("sid", "sid-1")]
    (Some (JDict [("status",
                   JDict [("statusCode", JInt 1);
                          ("errorType", JInt 1);
                          ("errorCode", JInt 1003)]);
                  ("payload",
                   JDict [("vehicleSummary", JList [JDict sample_vehicle])])])).





(** The command-status sequence [{a:1, b:0}], [{a:0, b:0}]. *)
Definition two_polls (i : nat) : list (string * Z) :=
  nth i [[("a", 1%Z); ("b", 0%Z)]; [("a", 0%Z); ("b", 0%Z)]] [].

Definition two_poll_world : World :=
  sample_world
    [reply_with 0 0 0 (JDict (codes_payload (two_polls 0))) [];
     reply_with 0 0 0 (JDict (codes_payload (two_polls 1))) []]
    [sample_token] [].

(** A backend that accepts a command, names it [xid-7] in the headers
    of its answer, and reports it complete at the first poll. *)
Definition obliging_world : World :=
  sample_world
    [reply_with 0 0 0 JNull [("Xid", "xid-7")];
     reply_with 0 0 0 (JDict [("ok", JInt 0)]) []]
    [sample_token] [].

(** The keywords of a call of the POST function, and of the GET one. *)
Definition post_kwargs (token : addr) (url : string) (json_body : addr)
  : Kwargs :=
  [("token", ATok token); ("url", AStr url); ("json_body", ADict json_body)].

Definition get_kwargs (token : addr) (url : string) : Kwargs :=
  [("token", ATok token); ("url", AStr url)].

(** * Properties *)

(** ** Running computations *)

Arguments api_headers_at : simpl never.

(** Unfolds the primitive computations, leaving the world explicit. *)
Ltac prims :=
  cbv beta iota zeta delta
    [bind ret raise lift log emit sleep clock requests_send read_token
     write_token new_token read_dict write_dict try_except_AuthError
     get_attr set_attr api_headers authed_api_headers].

Lemma bind_returns {A B} (m : M A) (f : A -> M B) w a w' :
  m w = (Returns a, w') -> bind m f w = f a w'.
Proof. intros H. unfold bind. now rewrite H. Qed.

Lemma bind_raises {A B} (m : M A) (f : A -> M B) w e w' :
  m w = (Raises e, w') -> bind m f w = (Raises e, w').
Proof. intros H. unfold bind. now rewrite H. Qed.

Lemma world_eq w1 w2 :
  script w1 = script w2 -> served w1 = served w2 -> trace w1 = trace w2 ->
  now w1 = now w2 -> tokens w1 = tokens w2 -> dicts w1 = dicts w2 ->
  w1 = w2.
Proof. destruct w1, w2; simpl; congruence. Qed.

Lemma record_record evs1 evs2 w :
  record evs2 (record evs1 w) = record (evs1 ++ evs2) w.
Proof. unfold record; simpl. now rewrite <- app_assoc. Qed.


(** Projections of the worlds that the steps below produce. *)
Ltac fields :=
  cbn [script served trace now tokens dicts record sent stored filed
       slept allocated attempted logged_in refreshed_world].


Section Steps.

Context {A B : Type}.
Variable f : A -> M B.


Lemma bind_lift_returns a w : bind (lift (Returns a)) f w = f a w.
Proof. reflexivity. Qed.

Lemma bind_lift_raises e w : bind (lift (Raises e)) f w = (Raises e, w).
Proof. reflexivity. Qed.

End Steps.

Lemma bind_log {B} lvl msg (f : unit -> M B) w :
  bind (log lvl msg) f w = f tt (record [ELog lvl msg] w).
Proof. reflexivity. Qed.





Lemma bind_sleep {B} s (f : unit -> M B) w :
  bind (sleep s) f w = f tt (slept s w).
Proof. reflexivity. Qed.

Lemma bind_new_dict {B} d (f : addr -> M B) w :
  bind (new_dict d) f w = f (length (dicts w)) (allocated d w).
Proof. reflexivity. Qed.

Lemma bind_assoc {A B C} (m : M A) (f : A -> M B) (g : B -> M C) w :
  bind (bind m f) g w = bind m (fun a => bind (f a) g) w.
Proof. unfold bind. destruct (m w) as [[a|e] w']; reflexivity. Qed.


(** ** Construction *)

(** C10. The USA constructor hands (username, password, region, brand,
    flag, pin) to a base constructor that takes (username, password, pin,
    region, brand, flag): the stored pin is the region supplied, the
    stored region the brand, the stored brand the geocode flag and the
    stored geocode flag the pin (for the two optional arguments, their
    defaults when they are left out). *)
Theorem init_permutes_configuration
    (u p r b : Json) (flag pn : option Json) (rnd1 rnd2 : string) :
  let self := KiaUvoAPIUSA_init u p r b flag pn rnd1 rnd2 in
  username self = u /\
  password self = p /\
  pin self = r /\
  region self = b /\
  brand self = default (JBool false) flag /\
  use_email_with_geocode_api self = default (JStr "") pn.
Proof. cbv zeta. unfold KiaUvoAPIUSA_init, with_endpoints; simpl. tauto. Qed.

(** ** Classification of responses *)

Lemma check_response_success r c t e w :
  envelope r c t e -> c = 0%Z ->
  check_response r w = (Returns r, record [ELog Debug (LGotResponse (text r))] w).
Proof.
  intros (rj & Hj & Hc & _ & _) ->.
  unfold check_response, log, emit, response_json, lift, bind, ret.
  rewrite Hj, Hc. reflexivity.
Qed.

Lemma check_response_session_invalid r w :
  session_invalid r ->
  check_response r w =
  (Raises AuthError,
   record [ELog Debug (LGotResponse (text r)); ELog Debug LSessionInvalid] w).
Proof.
  intros (rj & Hj & Hc & Ht & He).
  unfold check_response, log, emit, response_json, lift, bind, ret, raise.
  rewrite Hj, Hc, Ht, He. simpl. now rewrite record_record.
Qed.

Lemma check_response_unknown r c t e w :
  envelope r c t e -> c <> 0%Z -> ~ (c = 1 /\ t = 1 /\ e = 1003)%Z ->
  check_response r w =
  (Raises RequestException,
   record [ELog Debug (LGotResponse (text r));
           ELog Error (LUnknownError (text r))] w).
Proof.
  intros (rj & Hj & Hc & Ht & He) H0 H1.
  unfold check_response, log, emit, response_json, lift, bind, ret, raise.
  rewrite Hj, Hc. simpl.
  destruct (Z.eqb_spec c 0); [contradiction|].
  destruct (Z.eqb_spec c 1).
  - rewrite Ht. simpl. destruct (Z.eqb_spec t 1).
    + rewrite He. simpl. destruct (Z.eqb_spec e 1003); [tauto|].
      now rewrite record_record.
    + now rewrite record_record.
  - now rewrite record_record.
Qed.

Lemma request_with_logging_returns func self kwargs url w r w1 :
  kw_get "url" kwargs = Some url ->
  func self kwargs (record [ELog Debug (LSending url)] w) = (Returns r, w1) ->
  request_with_logging func self kwargs w = check_response r w1.
Proof.
  intros Hu Hf. unfold request_with_logging, kw_item, lift, log, emit, bind.
  rewrite Hu. now rewrite Hf.
Qed.

(** C3. The wrapper that inspects a decoded envelope sorts it three
    ways: status code 0 returns the response unchanged; status code 1
    with errorType 1 and errorCode 1003 raises AuthError; every other
    envelope is logged at error level and raises the generic
    RequestException, which the session guard lets through without a
    second attempt. *)
Theorem response_classification
    (rt : Runtime) (func : Client -> Kwargs -> M Response)
    (self : Client) (kwargs : Kwargs) (url : Arg) (w w1 : World)
    (r : Response) (c t e : Z) :
  kw_get "url" kwargs = Some url ->
  func self kwargs (record [ELog Debug (LSending url)] w) = (Returns r, w1) ->
  envelope r c t e ->
  let got := ELog Debug (LGotResponse (text r)) in
  (c = 0%Z ->
   request_with_logging func self kwargs w = (Returns r, record [got] w1)) /\
  ((c = 1 /\ t = 1 /\ e = 1003)%Z ->
   request_with_logging func self kwargs w =
   (Raises AuthError, record [got; ELog Debug LSessionInvalid] w1)) /\
  (c <> 0%Z -> ~ (c = 1 /\ t = 1 /\ e = 1003)%Z ->
   request_with_logging func self kwargs w =
   (Raises RequestException,
    record [got; ELog Error (LUnknownError (text r))] w1) /\
   request_with_active_session rt (request_with_logging func) self kwargs w =
   request_with_logging func self kwargs w).
Proof.
  intros Hu Hf He got.
  rewrite (request_with_logging_returns _ _ _ _ _ _ _ Hu Hf).
  repeat split.
  - intros Hc. eapply check_response_success; eauto.
  - intros (-> & -> & ->). now apply check_response_session_invalid.
  - eapply check_response_unknown; eauto.
  - unfold request_with_active_session, try_except_AuthError.
    rewrite (request_with_logging_returns _ _ _ _ _ _ _ Hu Hf).
    now rewrite (check_response_unknown _ _ _ _ _ He) by assumption.
Qed.

Lemma response_classification_witness :
  fst (request_with_logging (post_request sample_runtime) sample_client
         (post_kwargs 0 "https://api.owners.kia.com/apigw/v1/rems/rvs" 0)
         (sample_world [reply_with 2 0 0 JNull []] [sample_token]
                       [[("requestType", JInt 0)]]))
  = Raises RequestException.
Proof.
  set (kw := post_kwargs 0 "https://api.owners.kia.com/apigw/v1/rems/rvs" 0).
  set (w0 := sample_world _ _ _).
  set (url := AStr "https://api.owners.kia.com/apigw/v1/rems/rvs").
  set (w1 := snd (post_request sample_runtime sample_client kw
                    (record [ELog Debug (LSending url)] w0))).
  destruct (response_classification sample_runtime
              (post_request sample_runtime) sample_client kw url w0 w1
              (mkResponse "..." []
                 (Some (JDict [("status",
                                JDict [("statusCode", JInt 2);
                                       ("errorType", JInt 0);
                                       ("errorCode", JInt 0)]);
                               ("payload", JNull)])))
              2 0 0) as (_ & _ & H).
  - reflexivity.
  - reflexivity.
  - eexists; repeat split; reflexivity.
  - destruct H as [H _]; [lia | lia |]. now rewrite H.
Defined.

(** Assigning to the instance that was allocated last. *)
Lemma insert_fresh {A} (l : list A) (x y : A) :
  <[length l := y]> (l ++ [x]) = l ++ [y].
Proof.
  rewrite insert_app_r_alt by lia. now rewrite Nat.sub_diag.
Qed.

(** ** Login *)

Section LoginFacts.

Variable rt : Runtime.
Variable self : Client.

Lemma api_headers_run w :
  api_headers rt self w = (Returns (api_headers_at rt self (now w)), w).
Proof. reflexivity. Qed.

Lemma headers_ok_set k v headers :
  header_value_ok v = true -> headers_ok headers = true ->
  headers_ok (dict_set k v headers) = true.
Proof.
  intros Hv. unfold headers_ok.
  induction headers as [|[k' v'] headers IH]; cbn [dict_set forallb snd].
  - intros _. now rewrite Hv.
  - intros H. apply andb_prop in H. destruct H as [H1 H2].
    destruct (String.eqb k k'); cbn [forallb snd].
    + now rewrite Hv, H2.
    + now rewrite H1, IH.
Qed.

(** The headers that [api_headers] builds are strings, all of them. *)
Lemma api_headers_ok t : headers_ok (api_headers_at rt self t) = true.
Proof. reflexivity. Qed.

Lemma login_headers_ok t sid :
  headers_ok (dict_set "sid" (JStr sid) (api_headers_at rt self t)) = true.
Proof. apply headers_ok_set; [reflexivity | apply api_headers_ok]. Qed.

Lemma requests_send_answer site m url body headers w r :
  headers_ok headers = true ->
  script w (served w) = Answer r ->
  requests_send site m url body headers w =
  (Returns r, sent (ERequest site m url body headers) w).
Proof. intros Hh H. unfold requests_send. now rewrite Hh, H. Qed.

Lemma requests_send_unreachable site m url body headers w :
  headers_ok headers = true ->
  script w (served w) = Unreachable ->
  requests_send site m url body headers w =
  (Raises ConnectionError, sent (ERequest site m url body headers) w).
Proof. intros Hh H. unfold requests_send. now rewrite Hh, H. Qed.

Lemma requests_send_refused site m url body headers w :
  headers_ok headers = false ->
  requests_send site m url body headers w = (Raises InvalidHeader, w).
Proof. intros Hh. unfold requests_send. now rewrite Hh. Qed.

Lemma login_no_session_id w r :
  script w (served w) = Answer r ->
  header_get "sid" (resp_headers r) = None ->
  login rt self w =
  (Raises PyException,
   record [ELog Debug (LSignInResponse (text r))]
          (sent (auth_request rt self (now w)) w)).
Proof.
  intros Hs Hh. unfold login.
  rewrite (bind_returns _ _ _ _ _ (api_headers_run w)).
  rewrite (bind_returns _ _ _ _ _
             (requests_send_answer _ _ _ _ _ _ _ (api_headers_ok _) Hs)).
  unfold log, emit, bind. now rewrite Hh.
Qed.

Lemma login_success w r1 r2 sid v :
  script w (served w) = Answer r1 ->
  header_get "sid" (resp_headers r1) = Some sid ->
  sid <> "" ->
  script w (S (served w)) = Answer r2 ->
  first_vehicle r2 = Returns v ->
  login rt self w =
  (Returns (length (tokens w)), logged_in rt self r1 r2 sid v w).
Proof.
  intros Hs Hh Hne Hs2 Hv. unfold login.
  rewrite (bind_returns _ _ _ _ _ (api_headers_run w)).
  rewrite (bind_returns _ _ _ _ _
             (requests_send_answer _ _ _ _ _ _ _ (api_headers_ok _) Hs)).
  unfold log, emit. unfold bind at 1. cbn iota beta. rewrite Hh.
  destruct (String.eqb_spec sid ""); [contradiction|].
  unfold bind at 1. cbn iota beta.
  rewrite (bind_returns _ _ _ _ _ (api_headers_run _)).
  erewrite bind_returns
    by (apply requests_send_answer; [apply login_headers_ok | exact Hs2]).
  unfold bind, lift, clock, new_token, write_token, ret. rewrite Hv.
  f_equal. apply world_eq; cbn; trivial.
  - now repeat rewrite <- app_assoc.
  - apply insert_fresh.
Qed.

End LoginFacts.

Lemma Token_set_fully_populated a b c d e f g h i j :
  fully_populated (Token_set a b c d e f g h i j).
Proof. unfold fully_populated, Token_set; simpl. repeat split; eauto. Qed.

Lemma first_vehicle_first r rj payload d others name id vin key model :
  json r = Some rj ->
  subscript rj "payload" = Returns payload ->
  subscript payload "vehicleSummary" = Returns (JList (JDict d :: others)) ->
  dict_get "nickName" d = Some name ->
  dict_get "vehicleIdentifier" d = Some id ->
  dict_get "vin" d = Some vin ->
  dict_get "vehicleKey" d = Some key ->
  dict_get "modelName" d = Some model ->
  first_vehicle r =
  Returns (mkSummary name id vin key model
             (default (JStr "missing") (dict_get "enrollmentDate" d))).
Proof.
  intros Hj Hp Hs Hn Hi Hv Hk Hm.
  unfold first_vehicle, response_json. rewrite Hj. simpl.
  rewrite Hp. simpl. rewrite Hs. simpl.
  now rewrite Hn, Hi, Hv, Hk, Hm.
Qed.

(** Whatever the backend does, [login] either raises and leaves the
    Tokens as they were, or returns a new instance with every field
    set. *)
Lemma login_all_or_nothing rt self w :
  match login rt self w with
  | (Raises _, w') => tokens w' = tokens w
  | (Returns a, w') =>
      a = length (tokens w) /\
      exists t, tokens w' = tokens w ++ [t] /\ fully_populated t
  end.
Proof.
  unfold login. prims. rewrite api_headers_ok.
  destruct (script w (served w)) as [r1|]; cbn; [|reflexivity].
  destruct (header_get "sid" (resp_headers r1)) as [sid|]; cbn;
    [|reflexivity].
  destruct (String.eqb sid ""); cbn; [reflexivity|].
  rewrite login_headers_ok.
  destruct (script w (S (served w))) as [r2|]; cbn; [|reflexivity].
  destruct (first_vehicle r2) as [v|]; cbn; [|reflexivity].
  split; [reflexivity|]. eexists. split.
  - apply insert_fresh.
  - apply Token_set_fully_populated.
Qed.

(** Whatever the backend does, [login] makes one or two requests, two
    whenever it returns; it moves no clock and touches no body. *)
Lemma login_run_bounds rt self w :
  served w < served (snd (login rt self w)) /\
  served (snd (login rt self w)) <= served w + 2 /\
  now (snd (login rt self w)) = now w /\
  dicts (snd (login rt self w)) = dicts w /\
  script (snd (login rt self w)) = script w /\
  (forall a, fst (login rt self w) = Returns a ->
             served (snd (login rt self w)) = served w + 2).
Proof.
  unfold login. prims. rewrite api_headers_ok.
  destruct (script w (served w)) as [r1|]; cbn;
    [|repeat split; try lia; discriminate].
  destruct (header_get "sid" (resp_headers r1)) as [sid|]; cbn;
    [|repeat split; try lia; discriminate].
  destruct (String.eqb sid ""); cbn;
    [repeat split; try lia; discriminate|].
  rewrite login_headers_ok.
  destruct (script w (S (served w))) as [r2|]; cbn;
    [|repeat split; try lia; discriminate].
  destruct (first_vehicle r2) as [v|]; cbn;
    repeat split; try lia; discriminate.
Qed.

(** C7. A login that succeeds returns a Token with every field set at
    once: the session identifier of the authentication response, the
    identifying fields of the first vehicle of the fetched list, and a
    validity limit one hour after the current time; a login that fails
    leaves no Token behind. *)
Theorem login_returns_populated_token (rt : Runtime) (self : Client) :
  (forall w,
     match login rt self w with
     | (Raises _, w') => tokens w' = tokens w
     | (Returns a, w') =>
         a = length (tokens w) /\
         exists t, tokens w' = tokens w ++ [t] /\ fully_populated t
     end) /\
  (forall w r1 r2 sid rj payload d others name id vin key model,
     script w (served w) = Answer r1 ->
     header_get "sid" (resp_headers r1) = Some sid ->
     sid <> "" ->
     script w (S (served w)) = Answer r2 ->
     json r2 = Some rj ->
     subscript rj "payload" = Returns payload ->
     subscript payload "vehicleSummary" = Returns (JList (JDict d :: others)) ->
     dict_get "nickName" d = Some name ->
     dict_get "vehicleIdentifier" d = Some id ->
     dict_get "vin" d = Some vin ->
     dict_get "vehicleKey" d = Some key ->
     dict_get "modelName" d = Some model ->
     fst (login rt self w) = Returns (length (tokens w)) /\
     tokens (snd (login rt self w)) =
     tokens w ++
       [Token_set (JStr sid) JNull vin name id key model
          (default (JStr "missing") (dict_get "enrollmentDate" d))
          (JStr (strftime rt (DATE_FORMAT rt)
                   (now w + tm_gmtoff rt + 3600)%Z))
          (JStr "NoStamp")]).
Proof.
  split.
  - apply login_all_or_nothing.
  - intros w r1 r2 sid rj payload d others name id vin key model
      Hs Hh Hne Hs2 Hj Hp Hl Hn Hi Hv Hk Hm.
    rewrite (login_success rt self w r1 r2 sid _ Hs Hh Hne Hs2
               (first_vehicle_first _ _ _ _ _ _ _ _ _ _
                  Hj Hp Hl Hn Hi Hv Hk Hm)).
    split; reflexivity.
Qed.

(** C5. When the authentication response carries no session identifier
    header, [login] raises at once (the exception of line 166, which is
    the spec's AuthenticationFailedError): the authentication request is
    the only request made, the vehicle list is never asked for, and no
    Token is created. *)
Theorem login_fails_fast_without_session_id
    (rt : Runtime) (self : Client) (w : World) (r : Response) :
  script w (served w) = Answer r ->
  header_get "sid" (resp_headers r) = None ->
  fst (login rt self w) = Raises PyException /\
  served (snd (login rt self w)) = S (served w) /\
  trace (snd (login rt self w)) =
    trace w ++ [auth_request rt self (now w);
                ELog Debug (LSignInResponse (text r))] /\
  tokens (snd (login rt self w)) = tokens w.
Proof.
  intros Hs Hh. rewrite (login_no_session_id rt self w r Hs Hh).
  unfold record, sent; simpl. rewrite <- app_assoc. auto.
Qed.

Lemma login_returns_populated_token_witness :
  let w := sample_world [Answer sample_auth_response;
                         Answer sample_vehicles_response] [] [] in
  fst (login sample_runtime sample_client w) = Returns 0 /\
  tokens (snd (login sample_runtime sample_client w)) =
  [Token_set (JStr "sid-1") JNull (JStr "VIN1") (JStr "My EV6") (JStr "id1")
     (JStr "key1") (JStr "EV6") (JStr "missing")
     (JStr "%Y-%m-%d %H:%M:%S.%f@1699985600") (JStr "NoStamp")].
Proof.
  intros w.
  refine (proj2 (login_returns_populated_token sample_runtime sample_client)
            w sample_auth_response sample_vehicles_response "sid-1"
            _ _ sample_vehicle _ _ _ _ _ _
            _ _ _ _ _ _ _ _ _ _ _ _);
    try reflexivity.
  discriminate.
Defined.

Lemma login_fails_fast_without_session_id_witness :
  let w := sample_world [Answer (mkResponse "denied" [("Date", "now")] None);
                         Answer sample_vehicles_response] [] [] in
  fst (login sample_runtime sample_client w) = Raises PyException /\
  served (snd (login sample_runtime sample_client w)) = 1.
Proof.
  intros w.
  destruct (login_fails_fast_without_session_id sample_runtime sample_client
              w (mkResponse "denied" [("Date", "now")] None))
    as (H1 & H2 & _); [reflexivity | reflexivity |].
  split; assumption.
Defined.

(** ** The lock command *)

Lemma get_request_rejects_headers rt self token url headers w :
  get_request rt self
    [("token", token); ("url", url); ("headers", headers)] w =
  (Raises TypeError, w).
Proof. reflexivity. Qed.

Lemma lock_action_run rt fuel self token action w :
  lock_action rt fuel self token action w =
  (Raises TypeError,
   record
     [ELog Debug
        (LSending
           (AStr (API_URL self +:+
                  (if is_close action then "rems/door/lock"
                   else "rems/door/unlock"))))]
     (allocated (authed_headers rt self w token)
        (record
           [ELog Debug (LActionForLock action);
            ELog Debug
              (if is_close action then LCallingLock else LCallingUnlock)]
           w))).
Proof.
  unfold lock_action, get_request_with_logging_and_active_session,
    request_with_active_session, request_with_logging.
  prims.
  destruct (is_close action); cbn; f_equal;
    apply world_eq; fields; try reflexivity;
    now repeat rewrite <- app_assoc.
Qed.

(** C9. Whatever the token and the action, [lock_action] raises a
    TypeError before anything is sent: the [headers] keyword it passes
    goes through both wrappers to a function that takes only [self],
    [token] and [url].  The trace gains three log lines and no request,
    no request is counted, and the Tokens are untouched. *)
Theorem lock_action_never_sends
    (rt : Runtime) (fuel : nat) (self : Client) (token : addr)
    (action : Json) (w : World) :
  let out := lock_action rt fuel self token action w in
  fst out = Raises TypeError /\
  served (snd out) = served w /\
  trace (snd out) =
    trace w ++
      [ELog Debug (LActionForLock action);
       ELog Debug (if is_close action then LCallingLock else LCallingUnlock);
       ELog Debug
         (LSending
            (AStr (API_URL self +:+
                   (if is_close action then "rems/door/lock"
                    else "rems/door/unlock"))))] /\
  tokens (snd out) = tokens w.
Proof.
  cbv zeta. rewrite lock_action_run. cbn [fst snd]. fields.
  split; [reflexivity|]. split; [reflexivity|]. split; [|reflexivity].
  now rewrite <- app_assoc.
Qed.

(** ** Cached vehicle status *)

Lemma dict_get_set_ne k k' v d :
  String.eqb k k' = false -> dict_get k (dict_set k' v d) = dict_get k d.
Proof.
  intros Hne. induction d as [|[k0 v0] d IH]; simpl.
  - now rewrite Hne.
  - destruct (String.eqb_spec k' k0) as [->|Hk]; simpl.
    + now rewrite Hne.
    + now rewrite IH.
Qed.

Lemma dict_get_set_eq k v d : dict_get k (dict_set k v d) = Some v.
Proof.
  induction d as [|[k0 v0] d IH]; simpl.
  - now rewrite String.eqb_refl.
  - destruct (String.eqb_spec k k0) as [->|Hk]; simpl.
    + now rewrite String.eqb_refl.
    + destruct (String.eqb_spec k k0); [contradiction | exact IH].
Qed.

Lemma subscript_set_ne k k' v d :
  String.eqb k k' = false ->
  subscript (JDict (dict_set k' v d)) k = subscript (JDict d) k.
Proof. intros H. unfold subscript. now rewrite dict_get_set_ne. Qed.

Lemma status_item_data vs rest k :
  status_item (JDict (("vehicleStatus", vs) :: rest)) k = subscript vs k.
Proof. reflexivity. Qed.

Lemma status_assign_data d rest k x :
  status_assign (JDict (("vehicleStatus", JDict d) :: rest)) k x =
  Returns (JDict (("vehicleStatus", JDict (dict_set k x d)) :: rest)).
Proof. reflexivity. Qed.

Lemma rbind_returns {A B} (a : A) (f : A -> Result B) :
  rbind (Returns a) f = f a.
Proof. reflexivity. Qed.

Lemma rbind_raises {A B} (e : Exn) (f : A -> Result B) :
  rbind (Raises e) f = Raises e.
Proof. reflexivity. Qed.

(** One read: case analysis on the first lookup that both sides make. *)
Ltac read_step :=
  match goal with
  | H : ?x = _ |- context [rbind ?x _] => rewrite H; rewrite ?rbind_returns
  | |- context [rbind ?x _] =>
      lazymatch x with
      | rbind _ _ => fail
      | _ =>
          destruct x eqn:?;
          [rewrite ?rbind_returns | rewrite ?rbind_raises; try reflexivity]
      end
  end.

(** [normalize] is the reads of [sections] followed by the assembly of
    [normalized]: it fails exactly where a read fails, with that read's
    exception. *)
Lemma normalize_sections rt response_body :
  normalize rt response_body =
  (s <- sections rt response_body ;; Returns (normalized s))%res.
Proof.
  unfold normalize, sections, item2, item3.
  do 11 read_step.
  destruct a2 as [| | | | |d]; rewrite status_item_data;
    try (unfold subscript at 1 2; rewrite ?rbind_raises; reflexivity).
  repeat (rewrite ?status_assign_data; rewrite ?rbind_returns;
          rewrite ?status_item_data;
          rewrite ?subscript_set_ne by reflexivity;
          read_step).
  reflexivity.
Qed.

Lemma normalized_status_keys s :
  let vs := normalized_status s in
  dict_get "time" vs = Some (sec_utc s) /\
  dict_get "doorOpen" vs = Some (sec_door s) /\
  dict_get "trunkOpen" vs = Some (sec_trunk s) /\
  dict_get "hoodOpen" vs = Some (sec_hood s) /\
  dict_get "tirePressureLamp" vs =
    Some (JDict [("tirePressureLampAll", sec_tire_all s)]) /\
  dict_get "airCtrlOn" vs = Some (sec_air_ctrl s) /\
  dict_get "defrost" vs = Some (sec_defrost s) /\
  dict_get "sideBackWindowHeat" vs = Some (sec_rear_window s) /\
  dict_get "sideMirrorHeat" vs = Some (sec_side_mirror s) /\
  dict_get "steerWheelHeat" vs = Some (sec_steering_wheel s) /\
  dict_get "airTemp" vs = Some (sec_air_temp s).
Proof.
  cbv zeta. unfold normalized_status.
  repeat split;
    repeat (rewrite dict_get_set_ne by reflexivity);
    apply dict_get_set_eq.
Qed.

(** C6, as the code has it. Normalization goes through exactly when
    every section it reads is in the response (and the mileage converts
    to a number): it then returns the record [normalized], whose three
    top-level keys and eleven added status keys are always the same;
    when a read fails, the exception of that read is what the caller
    gets, and no marker stands in for the missing field. *)
Theorem normalize_needs_every_section (rt : Runtime) (response_body : Json) :
  (forall s,
     sections rt response_body = Returns s ->
     normalize rt response_body = Returns (normalized s) /\
     subscript (normalized s) "odometer" =
       Returns (JDict [("value", sec_odometer s); ("unit", JInt 3)]) /\
     subscript (normalized s) "vehicleLocation" = Returns (sec_location s) /\
     subscript (normalized s) "vehicleStatus" =
       Returns (JDict (normalized_status s)) /\
     dict_get "time" (normalized_status s) = Some (sec_utc s) /\
     dict_get "doorOpen" (normalized_status s) = Some (sec_door s) /\
     dict_get "trunkOpen" (normalized_status s) = Some (sec_trunk s) /\
     dict_get "hoodOpen" (normalized_status s) = Some (sec_hood s) /\
     dict_get "tirePressureLamp" (normalized_status s) =
       Some (JDict [("tirePressureLampAll", sec_tire_all s)]) /\
     dict_get "airCtrlOn" (normalized_status s) = Some (sec_air_ctrl s) /\
     dict_get "defrost" (normalized_status s) = Some (sec_defrost s) /\
     dict_get "sideBackWindowHeat" (normalized_status s) =
       Some (sec_rear_window s) /\
     dict_get "sideMirrorHeat" (normalized_status s) =
       Some (sec_side_mirror s) /\
     dict_get "steerWheelHeat" (normalized_status s) =
       Some (sec_steering_wheel s) /\
     dict_get "airTemp" (normalized_status s) = Some (sec_air_temp s)) /\
  (forall e,
     sections rt response_body = Raises e ->
     normalize rt response_body = Raises e).
Proof.
  split.
  - intros s Hs. rewrite normalize_sections, Hs.
    split; [reflexivity|]. do 3 (split; [reflexivity|]).
    apply normalized_status_keys.
  - intros e He. now rewrite normalize_sections, He.
Qed.

Lemma normalize_needs_every_section_witness :
  normalize sample_runtime (status_body sample_status) =
  Returns
    (JDict
       [("vehicleStatus",
         JDict
           (sample_status ++
            [("time", JStr "20211018070626");
             ("doorOpen",
              JDict [("frontLeft", JInt 0); ("trunk", JInt 0);
                     ("hood", JInt 0)]);
             ("trunkOpen", JInt 0);
             ("hoodOpen", JInt 0);
             ("tirePressureLamp", JDict [("tirePressureLampAll", JInt 0)]);
             ("airCtrlOn", JBool false);
             ("defrost", JBool false);
             ("sideBackWindowHeat", JInt 0);
             ("sideMirrorHeat", JInt 0);
             ("steerWheelHeat", JInt 0);
             ("airTemp", JDict [("value", JStr "72"); ("unit", JInt 1)])]));
        ("odometer", JDict [("value", JInt 12345); ("unit", JInt 3)]);
        ("vehicleLocation",
         JDict [("coord", JDict [("lat", JInt 47); ("lon", JInt 8)])])]) /\
  normalize sample_runtime (status_body sample_status_without_tires) =
  Raises (KeyError "tirePressure").
Proof.
  destruct (normalize_needs_every_section sample_runtime
              (status_body sample_status)) as [Hok _].
  destruct (normalize_needs_every_section sample_runtime
              (status_body sample_status_without_tires)) as [_ Hko].
  split.
  - destruct (sections sample_runtime (status_body sample_status))
      as [s|] eqn:Hs; [|discriminate Hs].
    destruct (Hok s eq_refl) as [H _]. rewrite H.
    vm_compute in Hs. injection Hs as <-. reflexivity.
  - apply Hko. reflexivity.
Defined.

(** C6, as the claim has it, fails: a cached-status response that has
    everything but the tire-pressure section makes the normalization,
    and with it [get_cached_vehicle_status], raise a KeyError. *)
Lemma normalize_fails_without_tire_pressure :
  normalize sample_runtime (status_body sample_status_without_tires) =
    Raises (KeyError "tirePressure") /\
  fst (get_cached_vehicle_status sample_runtime sample_client 0
         (sample_world
            [Answer (mkResponse "{...}" []
                       (Some (status_body sample_status_without_tires)))]
            [sample_token] [])) =
    Raises (KeyError "tirePressure").
Proof. split; vm_compute; reflexivity. Qed.

(** ** The session guard *)

Section Attempts.

Variable rt : Runtime.
Variable self : Client.

(** The headers of an authenticated call are fit to be sent exactly
    when the Token's two credentials are. *)
Lemma authed_headers_ok w tok :
  headers_ok (authed_headers rt self w tok) = sendable w tok.
Proof.
  unfold sendable, authed_headers, api_headers_at. cbv zeta.
  generalize (attr access_token (default Token_unset (tokens w !! tok))).
  generalize (attr vehicle_regid (default Token_unset (tokens w !! tok))).
  intros regid access. cbn.
  now destruct (header_value_ok access), (header_value_ok regid).
Qed.

(** One pass through the logging wrapper: the call is announced, the
    request goes out with the Token's credentials of the moment and the
    body dict as it is at that moment, and the reaction is classified. *)
Lemma post_attempt tok url b w :
  sendable w tok = true ->
  request_with_logging (post_request rt) self (post_kwargs tok url b) w =
  outcome_of (script w (served w))
             (attempted (post_event rt self w tok url b) url w).
Proof.
  intros Hok. rewrite <- authed_headers_ok in Hok.
  unfold authed_headers in Hok. cbv zeta in Hok.
  unfold request_with_logging, post_request, post_kwargs, attempted,
    outcome_of.
  prims. cbn. rewrite Hok.
  destruct (script w (served w)); reflexivity.
Qed.

Lemma get_attempt tok url w :
  sendable w tok = true ->
  request_with_logging (get_request rt) self (get_kwargs tok url) w =
  outcome_of (script w (served w))
             (attempted (get_event rt self w tok url) url w).
Proof.
  intros Hok. rewrite <- authed_headers_ok in Hok.
  unfold authed_headers in Hok. cbv zeta in Hok.
  unfold request_with_logging, get_request, get_kwargs, attempted,
    outcome_of.
  prims. cbn. rewrite Hok.
  destruct (script w (served w)); reflexivity.
Qed.

(** A pass with a Token that cannot be sent: the call is announced, and
    [requests] refuses it before anything goes out. *)
Lemma post_attempt_refused tok url b w :
  sendable w tok = false ->
  request_with_logging (post_request rt) self (post_kwargs tok url b) w =
  (Raises InvalidHeader, record [ELog Debug (LSending (AStr url))] w).
Proof.
  intros Hok. rewrite <- authed_headers_ok in Hok.
  unfold authed_headers in Hok. cbv zeta in Hok.
  unfold request_with_logging, post_request, post_kwargs.
  prims. cbn. now rewrite Hok.
Qed.

Lemma get_attempt_refused tok url w :
  sendable w tok = false ->
  request_with_logging (get_request rt) self (get_kwargs tok url) w =
  (Raises InvalidHeader, record [ELog Debug (LSending (AStr url))] w).
Proof.
  intros Hok. rewrite <- authed_headers_ok in Hok.
  unfold authed_headers in Hok. cbv zeta in Hok.
  unfold request_with_logging, get_request, get_kwargs.
  prims. cbn. now rewrite Hok.
Qed.

End Attempts.


Lemma lookup_fresh {A} (l : list A) (x : A) : (l ++ [x]) !! length l = Some x.
Proof. now apply list_lookup_middle. Qed.

Section Guard.

Variable rt : Runtime.
Variable self : Client.












End Guard.

(** ** Counting requests *)

Lemma tally_app weight evs1 evs2 :
  tally weight (evs1 ++ evs2) = tally weight evs1 + tally weight evs2.
Proof. induction evs1 as [|e evs1 IH]; simpl; [reflexivity | lia]. Qed.

Section Costs.

Variable weight : Site -> nat.

Lemma costs_weaken {A} n N (m : M A) :
  costs weight n m -> n <= N -> costs weight N m.
Proof. intros H Hle w. specialize (H w). lia. Qed.

Lemma costs_ret {A} (a : A) : costs weight 0 (ret a).
Proof. intros w. simpl. lia. Qed.

Lemma costs_raise {A} e : costs weight 0 (@raise A e).
Proof. intros w. simpl. lia. Qed.

Lemma costs_lift {A} (r : Result A) : costs weight 0 (lift r).
Proof. intros w. simpl. lia. Qed.

Lemma costs_log lvl msg : costs weight 0 (log lvl msg).
Proof. intros w. simpl. rewrite tally_app. simpl. lia. Qed.

Lemma costs_clock : costs weight 0 clock.
Proof. intros w. simpl. lia. Qed.

Lemma costs_read_token a : costs weight 0 (read_token a).
Proof. intros w. simpl. lia. Qed.

Lemma costs_write_token a t : costs weight 0 (write_token a t).
Proof. intros w. simpl. lia. Qed.

Lemma costs_new_token t : costs weight 0 (new_token t).
Proof. intros w. simpl. lia. Qed.

Lemma costs_read_dict a : costs weight 0 (read_dict a).
Proof. intros w. simpl. lia. Qed.

Lemma costs_write_dict a d : costs weight 0 (write_dict a d).
Proof. intros w. simpl. lia. Qed.

Lemma costs_new_dict d : costs weight 0 (new_dict d).
Proof. intros w. simpl. lia. Qed.

Lemma costs_requests_send site m url body headers :
  costs weight (weight site) (requests_send site m url body headers).
Proof.
  intros w. unfold requests_send.
  destruct (headers_ok headers); [|simpl; lia].
  destruct (script w (served w)); simpl; rewrite tally_app; simpl; lia.
Qed.

(** A step that costs nothing leaves the whole budget to what follows;
    a step may take the whole budget; or the budget is split. *)
Lemma costs_bind_free {A B} N (m : M A) (f : A -> M B) :
  costs weight 0 m -> (forall a, costs weight N (f a)) ->
  costs weight N (bind m f).
Proof.
  intros Hm Hf w. unfold bind. specialize (Hm w).
  destruct (m w) as [[a|e] w']; simpl in *.
  - specialize (Hf a w'). lia.
  - lia.
Qed.

Lemma costs_bind_split {A B} n k (m : M A) (f : A -> M B) :
  costs weight n m -> (forall a, costs weight k (f a)) ->
  costs weight (n + k) (bind m f).
Proof.
  intros Hm Hf w. unfold bind. specialize (Hm w).
  destruct (m w) as [[a|e] w']; simpl in *.
  - specialize (Hf a w'). lia.
  - lia.
Qed.

Lemma costs_bind_all {A B} N (m : M A) (f : A -> M B) :
  costs weight N m -> (forall a, costs weight 0 (f a)) ->
  costs weight N (bind m f).
Proof.
  intros Hm Hf. eapply costs_weaken.
  - apply costs_bind_split; eassumption.
  - lia.
Qed.

Lemma costs_try {A} n k (m h : M A) :
  costs weight n m -> costs weight k h ->
  costs weight (n + k) (try_except_AuthError m h).
Proof.
  intros Hm Hh w. unfold try_except_AuthError. specialize (Hm w).
  destruct (m w) as [[a|e] w']; simpl in *; [lia|].
  destruct (is_AuthError e); simpl; [|lia].
  specialize (Hh w'). lia.
Qed.

Lemma costs_get_attr tok fld : costs weight 0 (get_attr tok fld).
Proof.
  destruct tok; simpl; try apply costs_raise.
  apply costs_bind_free; [apply costs_read_token | intros; apply costs_ret].
Qed.

Lemma costs_set_attr tok upd v : costs weight 0 (set_attr tok upd v).
Proof.
  destruct tok; simpl; try apply costs_raise.
  apply costs_bind_free;
    [apply costs_read_token | intros; apply costs_write_token].
Qed.

Lemma costs_api_headers rt self : costs weight 0 (api_headers rt self).
Proof.
  apply costs_bind_free; [apply costs_clock | intros; apply costs_ret].
Qed.

Lemma costs_authed_api_headers rt self tok :
  costs weight 0 (authed_api_headers rt self tok).
Proof.
  unfold authed_api_headers.
  repeat (apply costs_bind_free;
          [first [apply costs_api_headers | apply costs_get_attr] | intros]).
  apply costs_ret.
Qed.

End Costs.

(** Steps that add no request to the trace. *)
Ltac free_step :=
  first [ apply costs_ret | apply costs_raise | apply costs_lift
        | apply costs_log | apply costs_clock | apply costs_read_token
        | apply costs_write_token | apply costs_new_token
        | apply costs_read_dict | apply costs_write_dict
        | apply costs_new_dict | apply costs_get_attr | apply costs_set_attr
        | apply costs_api_headers | apply costs_authed_api_headers ].

(** Follows a computation down its binds and branches, as long as the
    steps are free or are requests that fit the budget. *)
Ltac costly :=
  lazymatch goal with
  | |- costs _ _ (bind _ _) =>
      first
        [ apply costs_bind_free; [free_step | intros; costly]
        | apply costs_bind_split;
          [first [apply costs_requests_send | eassumption] | intros; costly]
        | apply costs_bind_all;
          [first [apply costs_requests_send | eassumption] | intros; costly] ]
  | |- costs _ _ (match ?x with _ => _ end) => destruct x; costly
  | |- _ =>
      first
        [ eapply costs_weaken; [free_step | lia]
        | eapply costs_weaken;
          [first [apply costs_requests_send | eassumption] | lia] ]
  end.

Section GuardCosts.

Variable weight : Site -> nat.
Variable rt : Runtime.
Variable self : Client.

Lemma costs_login :
  costs weight (weight InLoginAuth + weight InLoginVehicles) (login rt self).
Proof. unfold login. costly. Qed.

Lemma costs_check_response r : costs weight 0 (check_response r).
Proof.
  unfold check_response.
  apply costs_bind_free; [free_step | intros].
  apply costs_bind_free; [free_step | intros].
  apply costs_bind_free; [free_step | intros].
  destruct (py_eq_int a1 0); [free_step|].
  apply costs_bind_free; [free_step | intros].
  apply costs_bind_free; [costly | intros; costly].
Qed.

Lemma costs_post_request kwargs :
  costs weight (weight InPostRequest) (post_request rt self kwargs).
Proof. unfold post_request. costly. Qed.


Lemma costs_request_with_logging func n kwargs :
  costs weight n (func self kwargs) ->
  costs weight n (request_with_logging func self kwargs).
Proof.
  intros Hf. unfold request_with_logging.
  apply costs_bind_free; [free_step | intros].
  apply costs_bind_free; [free_step | intros].
  apply costs_bind_all; [assumption | intros; apply costs_check_response].
Qed.

(** The guard costs at most two runs of the function it wraps and one
    login, for any function, keywords and world. *)
Lemma costs_request_with_active_session func n kwargs :
  costs weight n (func self kwargs) ->
  costs weight
    (n + (weight InLoginAuth + weight InLoginVehicles + n))
    (request_with_active_session rt func self kwargs).
Proof.
  intros Hf. unfold request_with_active_session.
  apply costs_try; [assumption|].
  apply costs_bind_free; [free_step | intros].
  apply costs_bind_free; [free_step | intros].
  apply costs_bind_split; [apply costs_login | intros].
  do 8 (apply costs_bind_free; [free_step | intros]).
  apply costs_bind_free.
  - destruct (kw_get "json_body" kwargs) as [[]|]; try free_step.
    apply costs_bind_free; [free_step | intros].
    destruct (truthy _); [|free_step].
    apply costs_bind_free; [free_step | intros; free_step].
  - intros. apply costs_bind_all; [assumption | intros; free_step].
Qed.

End GuardCosts.

(** ** At most one re-authentication *)











(** ** What the guard refreshes *)

Lemma dict_get_authed_sid rt self w tok :
  dict_get "sid" (authed_headers rt self w tok) =
  Some (attr access_token (default Token_unset (tokens w !! tok))).
Proof.
  unfold authed_headers. cbv zeta.
  rewrite dict_get_set_ne by reflexivity. apply dict_get_set_eq.
Qed.

Lemma dict_get_authed_vinkey rt self w tok :
  dict_get "vinkey" (authed_headers rt self w tok) =
  Some (attr vehicle_regid (default Token_unset (tokens w !! tok))).
Proof. unfold authed_headers. cbv zeta. apply dict_get_set_eq. Qed.




(** ** The action poller *)

Lemma steps_app evs1 evs2 : steps (evs1 ++ evs2) = steps evs1 ++ steps evs2.
Proof.
  induction evs1 as [|[| |] evs1 IH]; simpl; [reflexivity | | |];
    now rewrite IH.
Qed.

Lemma all_values_zero_codes codes :
  all_values_zero (JDict (codes_payload codes)) = Returns (all_zero codes).
Proof.
  unfold all_values_zero, all_zero, codes_payload. f_equal.
  induction codes as [|[k c] codes IH]; simpl; [reflexivity|].
  now rewrite IH.
Qed.

Section Poller.

Variable rt : Runtime.
Variable self : Client.

Lemma sendable_tokens w w' tok :
  tokens w' = tokens w -> sendable w' tok = sendable w tok.
Proof. intros H. unfold sendable. now rewrite H. Qed.

(** A call whose first attempt is answered with status code 0 goes
    through the guard untouched. *)
Lemma post_guard_success tok url b w r rj :
  sendable w tok = true ->
  script w (served w) = Answer r ->
  json r = Some rj ->
  status_field rj "statusCode" = Returns (JInt 0) ->
  post_request_with_logging_and_active_session rt self
    (post_kwargs tok url b) w =
  (Returns r,
   record [ELog Debug (LGotResponse (text r))]
          (attempted (post_event rt self w tok url b) url w)).
Proof.
  intros Hok Hs Hj Hc.
  unfold post_request_with_logging_and_active_session,
    request_with_active_session, try_except_AuthError.
  rewrite post_attempt by assumption. rewrite Hs. cbn [outcome_of].
  unfold check_response, response_json.
  rewrite bind_log, Hj, bind_lift_returns, Hc, bind_lift_returns.
  reflexivity.
Qed.

Lemma get_guard_success tok url w r rj :
  sendable w tok = true ->
  script w (served w) = Answer r ->
  json r = Some rj ->
  status_field rj "statusCode" = Returns (JInt 0) ->
  get_request_with_logging_and_active_session rt self (get_kwargs tok url) w =
  (Returns r,
   record [ELog Debug (LGotResponse (text r))]
          (attempted (get_event rt self w tok url) url w)).
Proof.
  intros Hok Hs Hj Hc.
  unfold get_request_with_logging_and_active_session,
    request_with_active_session, try_except_AuthError.
  rewrite get_attempt by assumption. rewrite Hs. cbn [outcome_of].
  unfold check_response, response_json.
  rewrite bind_log, Hj, bind_lift_returns, Hc, bind_lift_returns.
  reflexivity.
Qed.

Lemma poll_round_run fuel token xid w r codes :
  sendable w token = true ->
  script w (served w) = Answer r ->
  status_answer r codes ->
  poll rt (S fuel) self token xid w =
  if all_zero codes then (Returns (Some true), polled rt self token xid r w)
  else poll rt fuel self token xid (polled rt self token xid r w).
Proof.
  intros Hok Hs (rj & Hj & Hc & Hp).
  cbn [poll]. rewrite bind_sleep, bind_new_dict.
  change ([("token", ATok token); ("url", AStr (API_URL self +:+ "cmm/gts"));
           ("json_body", ADict (length (dicts (slept 10 w))))])
    with (post_kwargs token (API_URL self +:+ "cmm/gts") (length (dicts w))).
  erewrite bind_returns
    by (apply (post_guard_success _ _ _ _ r rj);
        [exact Hok | exact Hs | exact Hj | exact Hc]).
  unfold response_json. rewrite Hj, bind_lift_returns, Hp, bind_lift_returns,
    all_values_zero_codes, bind_lift_returns.
  destruct (all_zero codes); reflexivity.
Qed.

Lemma polled_facts token xid r w :
  script (polled rt self token xid r w) = script w /\
  served (polled rt self token xid r w) = S (served w) /\
  now (polled rt self token xid r w) = (now w + 10)%Z /\
  tokens (polled rt self token xid r w) = tokens w /\
  steps (trace (polled rt self token xid r w)) =
    steps (trace w) ++ poll_round self xid.
Proof.
  unfold polled. cbv zeta. unfold allocated, slept. fields. repeat split.
  rewrite !steps_app. unfold post_event. cbn [steps]. fields.
  rewrite lookup_fresh. cbn [from_option id app].
  now rewrite <- !app_assoc.
Qed.

Lemma poll_completes n : forall fuel token xid w (polls : nat -> list (string * Z)),
  sendable w token = true ->
  (forall i, i <= n ->
     exists r, script w (served w + i) = Answer r /\ status_answer r (polls i)) ->
  (forall i, i < n -> all_zero (polls i) = false) ->
  all_zero (polls n) = true ->
  n < fuel ->
  let out := poll rt fuel self token xid w in
  fst out = Returns (Some true) /\
  served (snd out) = served w + S n /\
  now (snd out) = (now w + 10 * Z.of_nat (S n))%Z /\
  tokens (snd out) = tokens w /\
  steps (trace (snd out)) =
    steps (trace w) ++ concat (repeat (poll_round self xid) (S n)).
Proof.
  induction n as [|n IH];
    intros fuel token xid w polls Hok Hans Hbusy Hdone Hfuel.
  - destruct fuel as [|fuel]; [lia|].
    destruct (Hans 0 (Nat.le_refl 0)) as (r & Hs & Hr).
    rewrite Nat.add_0_r in Hs.
    cbv zeta. rewrite (poll_round_run fuel token xid w r _ Hok Hs Hr), Hdone.
    cbn [fst snd].
    destruct (polled_facts token xid r w) as (_ & Hsv & Hn & Ht & Hst).
    rewrite Hsv, Hn, Ht, Hst. cbn [repeat concat]. rewrite app_nil_r.
    repeat split; lia.
  - destruct fuel as [|fuel]; [lia|].
    destruct (Hans 0 (Nat.le_0_l _)) as (r & Hs & Hr).
    rewrite Nat.add_0_r in Hs.
    cbv zeta. rewrite (poll_round_run fuel token xid w r _ Hok Hs Hr).
    rewrite (Hbusy 0) by lia.
    destruct (polled_facts token xid r w) as (Hsc & Hsv & Hn & Ht & Hst).
    destruct (IH fuel token xid (polled rt self token xid r w)
                (fun i => polls (S i))) as (H1 & H2 & H3 & H4 & H5).
    + now rewrite (sendable_tokens _ _ _ Ht).
    + intros i Hi. rewrite Hsc, Hsv.
      destruct (Hans (S i)) as (r' & Hs' & Hr'); [lia|].
      exists r'. split; [|exact Hr'].
      now rewrite Nat.add_succ_r in Hs'.
    + intros i Hi. apply Hbusy. lia.
    + exact Hdone.
    + lia.
    + rewrite H1, H2, H3, H4, H5, Hsv, Hn, Ht, Hst.
      repeat split; try lia.
      cbn [repeat concat]. now rewrite <- !app_assoc.
Qed.

Lemma poll_still_busy fuel : forall token xid w (polls : nat -> list (string * Z)),
  sendable w token = true ->
  (forall i, i < fuel ->
     exists r, script w (served w + i) = Answer r /\ status_answer r (polls i)) ->
  (forall i, i < fuel -> all_zero (polls i) = false) ->
  fst (poll rt fuel self token xid w) = Returns None /\
  served (snd (poll rt fuel self token xid w)) = served w + fuel.
Proof.
  induction fuel as [|fuel IH]; intros token xid w polls Hok Hans Hbusy.
  - cbn. split; [reflexivity | lia].
  - destruct (Hans 0) as (r & Hs & Hr); [lia|].
    rewrite Nat.add_0_r in Hs.
    rewrite (poll_round_run fuel token xid w r _ Hok Hs Hr).
    rewrite (Hbusy 0) by lia.
    destruct (polled_facts token xid r w) as (Hsc & Hsv & _ & Ht & _).
    destruct (IH token xid (polled rt self token xid r w)
                (fun i => polls (S i))) as (H1 & H2).
    + now rewrite (sendable_tokens _ _ _ Ht).
    + intros i Hi. rewrite Hsc, Hsv.
      destruct (Hans (S i)) as (r' & Hs' & Hr'); [lia|].
      exists r'. split; [|exact Hr'].
      now rewrite Nat.add_succ_r in Hs'.
    + intros i Hi. apply Hbusy. lia.
    + rewrite H1, H2, Hsv. split; [reflexivity | lia].
Qed.

End Poller.

(** C4. The poller sleeps 15 seconds before anything else, then sleeps
    10 seconds before each poll of [cmm/gts] with the handle.  For a
    Token whose credentials can be sent: when the answers to the first
    [n] polls each have a sub-check that is not zero and the answer to
    the next one has only zeros, the poller returns [True] after exactly
    [n + 1] polls; run for [n] rounds or fewer it is still polling. *)
Theorem action_poller_completion
    (rt : Runtime) (self : Client) (token : addr) (xid : string) (w : World)
    (n : nat) (polls : nat -> list (string * Z)) :
  sendable w token = true ->
  (forall i, i <= n ->
     exists r, script w (served w + i) = Answer r /\ status_answer r (polls i)) ->
  (forall i, i < n -> all_zero (polls i) = false) ->
  all_zero (polls n) = true ->
  (forall fuel, n < fuel ->
     let out := check_action_status rt fuel self token xid w in
     fst out = Returns (Some true) /\
     served (snd out) = served w + S n /\
     now (snd out) = (now w + 15 + 10 * Z.of_nat (S n))%Z /\
     steps (trace (snd out)) =
       steps (trace w) ++
         Sleeps 15 :: concat (repeat (poll_round self xid) (S n))) /\
  (forall fuel, fuel <= n ->
     fst (check_action_status rt fuel self token xid w) = Returns None).
Proof.
  intros Hok Hans Hbusy Hdone. split.
  - intros fuel Hfuel. cbv zeta. unfold check_action_status.
    rewrite bind_sleep.
    destruct (poll_completes rt self n fuel token xid (slept 15 w) polls)
      as (H1 & H2 & H3 & _ & H5); try assumption.
    rewrite H1, H2, H3, H5. unfold slept. fields.
    rewrite steps_app. cbn [steps]. rewrite <- app_assoc.
    repeat split; lia.
  - intros fuel Hfuel. unfold check_action_status. rewrite bind_sleep.
    apply (poll_still_busy rt self fuel token xid (slept 15 w) polls).
    + exact Hok.
    + intros i Hi. apply Hans. lia.
    + intros i Hi. apply Hbusy. lia.
Qed.

Lemma action_poller_completion_witness :
  let run fuel :=
    check_action_status sample_runtime fuel sample_client 0 "xid-7"
                        two_poll_world in
  fst (run 5) = Returns (Some true) /\
  served (snd (run 5)) = 2 /\
  steps (trace (snd (run 5))) =
    [Sleeps 15;
     Sleeps 10;
     Sends InPostRequest "https://api.owners.kia.com/apigw/v1/cmm/gts"
           (Some (JDict [("xid", JStr "xid-7")]));
     Sleeps 10;
     Sends InPostRequest "https://api.owners.kia.com/apigw/v1/cmm/gts"
           (Some (JDict [("xid", JStr "xid-7")]))] /\
  fst (run 1) = Returns None.
Proof.
  intros run.
  destruct (action_poller_completion sample_runtime sample_client 0 "xid-7"
              two_poll_world 1 two_polls) as (Hdone & Hbusy).
  - reflexivity.
  - intros i Hi. destruct i as [|[|i]]; [| |lia];
      (eexists; split; [reflexivity|]; eexists; repeat split; reflexivity).
  - intros i Hi. destruct i; [reflexivity | lia].
  - reflexivity.
  - destruct (Hdone 5) as (H1 & H2 & _ & H4); [lia|].
    split; [exact H1|]. split; [exact H2|]. split; [exact H4|].
    apply Hbusy. lia.
Defined.

(** ** Commands *)

Section Commands.

Variable rt : Runtime.
Variable self : Client.

Lemma header_item_found k r x :
  header_get k (resp_headers r) = Some x -> header_item k r = Returns x.
Proof. intros H. unfold header_item. now rewrite H. Qed.

Lemma stop_climate_hands_handle_to_poller fuel token w r rj xid :
  sendable w token = true ->
  script w (served w) = Answer r ->
  json r = Some rj ->
  status_field rj "statusCode" = Returns (JInt 0) ->
  header_get "Xid" (resp_headers r) = Some xid ->
  let url := API_URL self +:+ "rems/stop" in
  stop_climate rt fuel self token w =
  await rt self fuel token xid
    (record [ELog Debug (LGotResponse (text r))]
            (attempted (get_event rt self w token url) url w)).
Proof.
  intros Hok Hs Hj Hc Hx url. unfold stop_climate, await.
  change [("token", ATok token); ("url", AStr (API_URL self +:+ "rems/stop"))]
    with (get_kwargs token url).
  erewrite bind_returns by (apply (get_guard_success _ _ _ _ _ r rj); eassumption).
  now rewrite (header_item_found _ _ _ Hx), bind_lift_returns.
Qed.

Lemma stop_charge_hands_handle_to_poller fuel token w r rj xid :
  sendable w token = true ->
  script w (served w) = Answer r ->
  json r = Some rj ->
  status_field rj "statusCode" = Returns (JInt 0) ->
  header_get "Xid" (resp_headers r) = Some xid ->
  let url := API_URL self +:+ "evc/cancel" in
  stop_charge rt fuel self token w =
  await rt self fuel token xid
    (record [ELog Debug (LGotResponse (text r))]
            (attempted (get_event rt self w token url) url w)).
Proof.
  intros Hok Hs Hj Hc Hx url. unfold stop_charge, await.
  change [("token", ATok token); ("url", AStr (API_URL self +:+ "evc/cancel"))]
    with (get_kwargs token url).
  erewrite bind_returns by (apply (get_guard_success _ _ _ _ _ r rj); eassumption).
  now rewrite (header_item_found _ _ _ Hx), bind_lift_returns.
Qed.

Lemma start_charge_hands_handle_to_poller fuel token w r rj xid :
  sendable w token = true ->
  script w (served w) = Answer r ->
  json r = Some rj ->
  status_field rj "statusCode" = Returns (JInt 0) ->
  header_get "Xid" (resp_headers r) = Some xid ->
  let url := API_URL self +:+ "evc/charge" in
  let w1 := allocated [("chargeRatio", JInt 100)] w in
  start_charge rt fuel self token w =
  await rt self fuel token xid
    (record [ELog Debug (LGotResponse (text r))]
            (attempted (post_event rt self w1 token url (length (dicts w)))
                       url w1)).
Proof.
  intros Hok Hs Hj Hc Hx url w1. unfold start_charge, await.
  rewrite bind_new_dict.
  change [("token", ATok token); ("url", AStr (API_URL self +:+ "evc/charge"));
          ("json_body", ADict (length (dicts w)))]
    with (post_kwargs token url (length (dicts w))).
  erewrite bind_returns
    by (apply (post_guard_success _ _ _ _ _ _ r rj); eassumption).
  now rewrite (header_item_found _ _ _ Hx), bind_lift_returns.
Qed.

Lemma start_climate_hands_handle_to_poller fuel token
    set_temp duration defrost climate heating h w r rj xid :
  py_int rt heating = Returns h ->
  sendable w token = true ->
  script w (served w) = Answer r ->
  json r = Some rj ->
  status_field rj "statusCode" = Returns (JInt 0) ->
  header_get "Xid" (resp_headers r) = Some xid ->
  let url := API_URL self +:+ "rems/start" in
  let w1 :=
    allocated
      [("remoteClimate",
        JDict [("airCtrl", climate);
               ("airTemp",
                JDict [("unit", JInt 1);
                       ("value", JStr (py_str rt set_temp))]);
               ("defrost", defrost);
               ("heatingAccessory",
                JDict [("rearWindow", h); ("sideMirror", h);
                       ("steeringWheel", h)]);
               ("ignitionOnDuration",
                JDict [("unit", JInt 4); ("value", duration)])])] w in
  start_climate rt fuel self token set_temp duration defrost climate heating w =
  await rt self fuel token xid
    (record [ELog Debug (LGotResponse (text r))]
            (attempted (post_event rt self w1 token url (length (dicts w)))
                       url w1)).
Proof.
  intros Hh Hok Hs Hj Hc Hx url w1. unfold start_climate, await.
  rewrite Hh, !bind_lift_returns, bind_new_dict.
  change [("token", ATok token); ("url", AStr (API_URL self +:+ "rems/start"));
          ("json_body", ADict (length (dicts w)))]
    with (post_kwargs token url (length (dicts w))).
  erewrite bind_returns
    by (apply (post_guard_success _ _ _ _ _ _ r rj); eassumption).
  now rewrite (header_item_found _ _ _ Hx), bind_lift_returns.
Qed.

(** [update_vehicle_status] sends its one request and returns: it
    neither looks for a handle nor sleeps. *)
Lemma update_vehicle_status_single_request token w r rj :
  sendable w token = true ->
  script w (served w) = Answer r ->
  json r = Some rj ->
  status_field rj "statusCode" = Returns (JInt 0) ->
  let url := API_URL self +:+ "rems/rvs" in
  let out := update_vehicle_status rt self token w in
  fst out = Returns tt /\
  served (snd out) = S (served w) /\
  now (snd out) = now w /\
  steps (trace (snd out)) =
    steps (trace w) ++
      [Sends InPostRequest url (Some (JDict [("requestType", JInt 0)]))].
Proof.
  intros Hok Hs Hj Hc url out. unfold out, update_vehicle_status.
  rewrite bind_new_dict.
  change [("token", ATok token); ("url", AStr (API_URL self +:+ "rems/rvs"));
          ("json_body", ADict (length (dicts w)))]
    with (post_kwargs token url (length (dicts w))).
  erewrite bind_returns
    by (apply (post_guard_success _ _ _ _ _ _ r rj); eassumption).
  cbn [ret fst snd]. unfold allocated. fields.
  repeat split.
  rewrite !steps_app. unfold post_event. cbn [steps]. fields.
  rewrite lookup_fresh. cbn [from_option id app].
  now rewrite <- !app_assoc.
Qed.

End Commands.

(** C8, where the code departs from it. Against a backend that accepts
    every command, names it in the [Xid] header and reports it complete
    at the first poll, [stop_charge] sends its request, takes the handle
    from the headers and polls with it; [lock_action], for "close" as
    for "open", raises a TypeError before it sends anything, so that no
    handle is read and the poller is never entered. *)
Theorem lock_command_never_reaches_poller :
  let lock action :=
    lock_action sample_runtime 5 sample_client 0 (JStr action) obliging_world in
  let stop := stop_charge sample_runtime 5 sample_client 0 obliging_world in
  (fst (lock "close") = Raises TypeError /\
   steps (trace (snd (lock "close"))) = [] /\
   served (snd (lock "close")) = 0) /\
  (fst (lock "open") = Raises TypeError /\
   steps (trace (snd (lock "open"))) = [] /\
   served (snd (lock "open")) = 0) /\
  fst stop = Returns (Some tt) /\
  steps (trace (snd stop)) =
    [Sends InGetRequest "https://api.owners.kia.com/apigw/v1/evc/cancel" None;
     Sleeps 15;
     Sleeps 10;
     Sends InPostRequest "https://api.owners.kia.com/apigw/v1/cmm/gts"
           (Some (JDict [("xid", JStr "xid-7")]))].
Proof. vm_compute. repeat split. Qed.

(** * Further properties *)

(** ** Login: edge cases and footprint *)

Section LoginEdges.

Variable rt : Runtime.
Variable self : Client.

Lemma login_empty_sid_run w r :
  script w (served w) = Answer r ->
  header_get "sid" (resp_headers r) = Some "" ->
  login rt self w =
  (Raises PyException,
   record [ELog Debug (LSignInResponse (text r))]
          (sent (auth_request rt self (now w)) w)).
Proof.
  intros Hs Hh. unfold login.
  rewrite (bind_returns _ _ _ _ _ (api_headers_run rt self w)).
  rewrite (bind_returns _ _ _ _ _
             (requests_send_answer _ _ _ _ _ _ _
                (api_headers_ok rt self _) Hs)).
  unfold log, emit, bind. now rewrite Hh.
Qed.

Lemma login_vehicles_failure_run w r1 r2 sid e :
  script w (served w) = Answer r1 ->
  header_get "sid" (resp_headers r1) = Some sid ->
  sid <> "" ->
  script w (S (served w)) = Answer r2 ->
  first_vehicle r2 = Raises e ->
  login rt self w =
  (Raises e,
   mkWorld (script w) (S (S (served w)))
     (trace w ++
        [auth_request rt self (now w);
         ELog Debug (LSignInResponse (text r1));
         ELog Debug (LGotSessionId sid);
         vehicles_request rt self (now w) sid;
         ELog Debug (LGetVehiclesResponse (text r2))])
     (now w) (tokens w) (dicts w)).
Proof.
  intros Hs Hh Hne Hs2 Hv. unfold login.
  rewrite (bind_returns _ _ _ _ _ (api_headers_run rt self w)).
  rewrite (bind_returns _ _ _ _ _
             (requests_send_answer _ _ _ _ _ _ _
                (api_headers_ok rt self _) Hs)).
  unfold log, emit. unfold bind at 1. cbn iota beta. rewrite Hh.
  destruct (String.eqb_spec sid ""); [contradiction|].
  unfold bind at 1. cbn iota beta.
  rewrite (bind_returns _ _ _ _ _ (api_headers_run rt self _)).
  erewrite bind_returns
    by (apply requests_send_answer; [apply login_headers_ok | exact Hs2]).
  unfold bind, lift. rewrite Hv.
  f_equal. apply world_eq; cbn; trivial.
  now repeat rewrite <- app_assoc.
Qed.

End LoginEdges.

(** X1. A session identifier header that is there but empty is as good
    as none: [login] raises after its one request and creates no
    Token. *)
Theorem login_rejects_empty_session_id
    (rt : Runtime) (self : Client) (w : World) (r : Response) :
  script w (served w) = Answer r ->
  header_get "sid" (resp_headers r) = Some "" ->
  fst (login rt self w) = Raises PyException /\
  served (snd (login rt self w)) = S (served w) /\
  tokens (snd (login rt self w)) = tokens w.
Proof.
  intros Hs Hh. rewrite (login_empty_sid_run rt self w r Hs Hh).
  repeat split.
Qed.

Lemma login_rejects_empty_session_id_witness :
  let w := sample_world [Answer (mkResponse "{}" [("SID", "")] None)] [] [] in
  fst (login sample_runtime sample_client w) = Raises PyException /\
  served (snd (login sample_runtime sample_client w)) = 1.
Proof.
  intros w.
  destruct (login_rejects_empty_session_id sample_runtime sample_client w
              (mkResponse "{}" [("SID", "")] None) eq_refl eq_refl)
    as (H1 & H2 & _).
  split; [exact H1 | exact H2].
Defined.

(** X2. When the account has no vehicle (the list that comes back is
    empty), [login] raises an IndexError after its two requests and
    leaves no Token behind. *)
Theorem login_without_vehicles
    (rt : Runtime) (self : Client) (w : World) (r1 r2 : Response)
    (sid : string) (rj payload : Json) :
  script w (served w) = Answer r1 ->
  header_get "sid" (resp_headers r1) = Some sid ->
  sid <> "" ->
  script w (S (served w)) = Answer r2 ->
  json r2 = Some rj ->
  subscript rj "payload" = Returns payload ->
  subscript payload "vehicleSummary" = Returns (JList []) ->
  fst (login rt self w) = Raises IndexError /\
  served (snd (login rt self w)) = served w + 2 /\
  tokens (snd (login rt self w)) = tokens w.
Proof.
  intros Hs Hh Hne Hs2 Hj Hp Hl.
  assert (Hv : first_vehicle r2 = Raises IndexError).
  { unfold first_vehicle, response_json.
    now rewrite Hj, rbind_returns, Hp, rbind_returns, Hl. }
  rewrite (login_vehicles_failure_run rt self w r1 r2 sid _ Hs Hh Hne Hs2 Hv).
  cbn [fst snd served tokens]. repeat split. lia.
Qed.

Lemma login_without_vehicles_witness :
  let w :=
    sample_world
      [Answer sample_auth_response;
       Answer (mkResponse "{...}" []
                 (Some (JDict [("payload",
                                JDict [("vehicleSummary", JList [])])])))]
      [sample_token] [] in
  fst (login sample_runtime sample_client w) = Raises IndexError /\
  tokens (snd (login sample_runtime sample_client w)) = [sample_token].
Proof.
  intros w.
  destruct (login_without_vehicles sample_runtime sample_client w
              sample_auth_response
              (mkResponse "{...}" []
                 (Some (JDict [("payload",
                                JDict [("vehicleSummary", JList [])])])))
              "sid-1" _ _ eq_refl eq_refl ltac:(discriminate) eq_refl
              eq_refl eq_refl eq_refl)
    as (H1 & _ & H3).
  split; [exact H1 | exact H3].
Defined.

Lemma api_headers_no_credentials rt self t :
  dict_get "sid" (api_headers_at rt self t) = None /\
  dict_get "vinkey" (api_headers_at rt self t) = None /\
  dict_get "deviceid" (api_headers_at rt self t) =
    Some (JStr (client_device_id self)).
Proof. unfold api_headers_at. repeat split. Qed.

(** X3. In a login that goes through, the authentication request goes
    out without any session or vehicle header and with the client's
    credentials in its body; the vehicle-list request that follows
    carries the session identifier that the first answer brought.  Both
    are stamped with the client's device identifier. *)
Theorem login_requests
    (rt : Runtime) (self : Client) (w : World) (r1 r2 : Response)
    (sid : string) (v : VehicleSummary) :
  script w (served w) = Answer r1 ->
  header_get "sid" (resp_headers r1) = Some sid ->
  sid <> "" ->
  script w (S (served w)) = Answer r2 ->
  first_vehicle r2 = Returns v ->
  exists h1 h2,
    trace (snd (login rt self w)) =
      trace w ++
        [ERequest InLoginAuth POST (API_URL self +:+ "prof/authUser")
           (Some (JDict [("deviceKey", JStr "");
                         ("deviceType", JInt 2);
                         ("userCredential",
                          JDict [("userId", username self);
                                 ("password", password self)])])) h1;
         ELog Debug (LSignInResponse (text r1));
         ELog Debug (LGotSessionId sid);
         ERequest InLoginVehicles GET (API_URL self +:+ "ownr/gvl") None h2;
         ELog Debug (LGetVehiclesResponse (text r2))] /\
    dict_get "sid" h1 = None /\
    dict_get "vinkey" h1 = None /\
    dict_get "deviceid" h1 = Some (JStr (client_device_id self)) /\
    dict_get "sid" h2 = Some (JStr sid) /\
    dict_get "vinkey" h2 = None /\
    dict_get "deviceid" h2 = Some (JStr (client_device_id self)).
Proof.
  intros Hs Hh Hne Hs2 Hv.
  rewrite (login_success rt self w r1 r2 sid v Hs Hh Hne Hs2 Hv).
  destruct (api_headers_no_credentials rt self (now w)) as (H1 & H2 & H3).
  exists (api_headers_at rt self (now w)),
         (dict_set "sid" (JStr sid) (api_headers_at rt self (now w))).
  split; [reflexivity|].
  split; [exact H1|]. split; [exact H2|]. split; [exact H3|].
  split; [apply dict_get_set_eq|].
  split; now rewrite dict_get_set_ne by reflexivity.
Qed.

Lemma login_requests_witness :
  let w := sample_world [Answer sample_auth_response;
                         Answer sample_vehicles_response] [] [] in
  steps (trace (snd (login sample_runtime sample_client w))) =
  [Sends InLoginAuth "https://api.owners.kia.com/apigw/v1/prof/authUser"
         (Some (JDict [("deviceKey", JStr "");
                       ("deviceType", JInt 2);
                       ("userCredential",
                        JDict [("userId", JStr "driver@example.com");
                               ("password", JStr "hunter2")])]));
   Sends InLoginVehicles "https://api.owners.kia.com/apigw/v1/ownr/gvl" None].
Proof.
  intros w.
  destruct (login_requests sample_runtime sample_client w
              sample_auth_response sample_vehicles_response "sid-1"
              (mkSummary (JStr "My EV6") (JStr "id1") (JStr "VIN1")
                         (JStr "key1") (JStr "EV6") (JStr "missing"))
              eq_refl eq_refl ltac:(discriminate) eq_refl eq_refl)
    as (h1 & h2 & Htr & _).
  rewrite Htr. reflexivity.
Defined.

(** X4. Whatever the backend does, [login] makes one or two requests
    (two whenever it returns), never sleeps and touches no request
    body. *)
Theorem login_footprint (rt : Runtime) (self : Client) (w : World) :
  let out := login rt self w in
  served w < served (snd out) /\
  served (snd out) <= served w + 2 /\
  now (snd out) = now w /\
  dicts (snd out) = dicts w /\
  script (snd out) = script w /\
  (forall a, fst out = Returns a -> served (snd out) = served w + 2).
Proof. cbv zeta. apply login_run_bounds. Qed.

(** ** Headers *)

Lemma dict_get_set_other k k' v d :
  k <> k' -> dict_get k (dict_set k' v d) = dict_get k d.
Proof. intros H. apply dict_get_set_ne. now apply String.eqb_neq. Qed.

(** X5. The headers of an authenticated call are the plain headers with
    two more entries, taken from the Token as it is when the call is
    made: [sid] is its access token and [vinkey] its registration
    identifier; every other header is as in the plain set, and building
    them changes nothing in the world. *)
Theorem authed_headers_extend_plain_headers
    (rt : Runtime) (self : Client) (tok : addr) (w : World) :
  exists h,
    authed_api_headers rt self (ATok tok) w = (Returns h, w) /\
    dict_get "sid" h =
      Some (attr access_token (default Token_unset (tokens w !! tok))) /\
    dict_get "vinkey" h =
      Some (attr vehicle_regid (default Token_unset (tokens w !! tok))) /\
    forall k, k <> "sid" -> k <> "vinkey" ->
              dict_get k h = dict_get k (api_headers_at rt self (now w)).
Proof.
  exists (authed_headers rt self w tok).
  split; [reflexivity|].
  split; [apply dict_get_authed_sid|].
  split; [apply dict_get_authed_vinkey|].
  intros k Hs Hv. unfold authed_headers. cbv zeta.
  now rewrite !dict_get_set_other by assumption.
Qed.

(** ** What the guard leaves alone *)

Section Keeps.

Variable R : World -> World -> Prop.
Hypothesis R_refl : forall w, R w w.
Hypothesis R_trans : forall w1 w2 w3, R w1 w2 -> R w2 w3 -> R w1 w3.

(** [R] looks at the Tokens and at the clock only. *)
Hypothesis R_quiet :
  forall w w', tokens w' = tokens w -> now w' = now w -> R w w'.

Lemma keeps_ret {A} (a : A) : keeps R (ret a).
Proof. intros w. apply R_refl. Qed.

Lemma keeps_raise {A} e : keeps R (@raise A e).
Proof. intros w. apply R_refl. Qed.

Lemma keeps_lift {A} (r : Result A) : keeps R (lift r).
Proof. intros w. apply R_refl. Qed.

Lemma keeps_bind {A B} (m : M A) (f : A -> M B) :
  keeps R m -> (forall a, keeps R (f a)) -> keeps R (bind m f).
Proof.
  intros Hm Hf w. unfold bind. specialize (Hm w).
  destruct (m w) as [[a|e] w']; simpl in *; [|exact Hm].
  eapply R_trans; [exact Hm | apply Hf].
Qed.

Lemma keeps_try {A} (m h : M A) :
  keeps R m -> keeps R h -> keeps R (try_except_AuthError m h).
Proof.
  intros Hm Hh w. unfold try_except_AuthError. specialize (Hm w).
  destruct (m w) as [[a|e] w']; simpl in *; [exact Hm|].
  destruct (is_AuthError e); simpl; [|exact Hm].
  eapply R_trans; [exact Hm | apply Hh].
Qed.

Lemma keeps_log lvl msg : keeps R (log lvl msg).
Proof. intros w. now apply R_quiet. Qed.

Lemma keeps_clock : keeps R clock.
Proof. intros w. apply R_refl. Qed.

Lemma keeps_read_token a : keeps R (read_token a).
Proof. intros w. apply R_refl. Qed.

Lemma keeps_read_dict a : keeps R (read_dict a).
Proof. intros w. apply R_refl. Qed.

Lemma keeps_write_dict a d : keeps R (write_dict a d).
Proof. intros w. now apply R_quiet. Qed.

Lemma keeps_new_dict d : keeps R (new_dict d).
Proof. intros w. now apply R_quiet. Qed.

Lemma keeps_requests_send site m url body headers :
  keeps R (requests_send site m url body headers).
Proof.
  intros w. unfold requests_send.
  destruct (headers_ok headers); [|apply R_refl].
  destruct (script w (served w)); now apply R_quiet.
Qed.

Lemma keeps_get_attr tok fld : keeps R (get_attr tok fld).
Proof.
  destruct tok; simpl; try apply keeps_raise.
  apply keeps_bind; [apply keeps_read_token | intros; apply keeps_ret].
Qed.

Ltac quiet_step :=
  first [ apply keeps_ret | apply keeps_raise | apply keeps_lift
        | apply keeps_log | apply keeps_clock | apply keeps_read_token
        | apply keeps_read_dict | apply keeps_write_dict
        | apply keeps_new_dict | apply keeps_requests_send
        | apply keeps_get_attr | assumption ].

Ltac keeping :=
  lazymatch goal with
  | |- keeps _ (bind _ _) =>
      apply keeps_bind; [first [quiet_step | keeping] | intros; keeping]
  | |- keeps _ (match ?x with _ => _ end) => destruct x; keeping
  | |- _ => quiet_step
  end.

Variable rt : Runtime.
Variable self : Client.

Lemma keeps_authed_api_headers tok :
  keeps R (authed_api_headers rt self tok).
Proof. unfold authed_api_headers, api_headers. keeping. Qed.

Lemma keeps_check_response r : keeps R (check_response r).
Proof. unfold check_response. keeping. Qed.

Lemma keeps_post_request kwargs : keeps R (post_request rt self kwargs).
Proof.
  unfold post_request.
  apply keeps_bind; [quiet_step | intros].
  apply keeps_bind; [quiet_step | intros].
  apply keeps_bind; [quiet_step | intros].
  apply keeps_bind; [quiet_step | intros].
  apply keeps_bind; [apply keeps_authed_api_headers | intros].
  keeping.
Qed.

Lemma keeps_get_request kwargs : keeps R (get_request rt self kwargs).
Proof.
  unfold get_request.
  apply keeps_bind; [quiet_step | intros].
  apply keeps_bind; [quiet_step | intros].
  apply keeps_bind; [quiet_step | intros].
  apply keeps_bind; [apply keeps_authed_api_headers | intros].
  keeping.
Qed.

Lemma keeps_request_with_logging func kwargs :
  keeps R (func self kwargs) ->
  keeps R (request_with_logging func self kwargs).
Proof.
  intros Hf. unfold request_with_logging.
  apply keeps_bind; [quiet_step | intros].
  apply keeps_bind; [quiet_step | intros].
  apply keeps_bind; [assumption | intros; apply keeps_check_response].
Qed.

Lemma keeps_bind_lift {A B} (r : Result A) (f : A -> M B) :
  (forall a, r = Returns a -> keeps R (f a)) -> keeps R (bind (lift r) f).
Proof.
  intros Hf w. unfold bind, lift. destruct r as [a|e]; simpl.
  - now apply Hf.
  - apply R_refl.
Qed.

(** The guard keeps what the wrapped function, the login and the
    assignments to the Token it was given keep. *)
Lemma keeps_request_with_active_session func kwargs :
  keeps R (func self kwargs) ->
  keeps R (login rt self) ->
  (forall tok upd v,
     kw_get "token" kwargs = Some tok -> keeps R (set_attr tok upd v)) ->
  keeps R (request_with_active_session rt func self kwargs).
Proof.
  intros Hf Hlogin Hset. unfold request_with_active_session.
  apply keeps_try; [assumption|].
  apply keeps_bind; [quiet_step | intros _].
  apply keeps_bind_lift. intros token Htoken.
  assert (Htok : kw_get "token" kwargs = Some token).
  { unfold kw_item in Htoken.
    destruct (kw_get "token" kwargs); now inversion Htoken. }
  apply keeps_bind; [assumption | intros new_token].
  apply keeps_bind; [quiet_step | intros old].
  apply keeps_bind; [quiet_step | intros new].
  apply keeps_bind; [quiet_step | intros _].
  apply keeps_bind; [now apply Hset | intros _].
  apply keeps_bind; [quiet_step | intros regid].
  apply keeps_bind; [now apply Hset | intros _].
  apply keeps_bind; [quiet_step | intros valid].
  apply keeps_bind; [now apply Hset | intros _].
  apply keeps_bind; [keeping | intros _].
  apply keeps_bind; [assumption | intros; quiet_step].
Qed.

End Keeps.

Lemma same_time_refl w : same_time w w.
Proof. reflexivity. Qed.

Lemma same_time_trans w1 w2 w3 :
  same_time w1 w2 -> same_time w2 w3 -> same_time w1 w3.
Proof. unfold same_time. congruence. Qed.

Lemma same_time_quiet w w' :
  tokens w' = tokens w -> now w' = now w -> same_time w w'.
Proof. intros _ H. exact H. Qed.

Lemma not_earlier_refl w : not_earlier w w.
Proof. unfold not_earlier. lia. Qed.

Lemma not_earlier_trans w1 w2 w3 :
  not_earlier w1 w2 -> not_earlier w2 w3 -> not_earlier w1 w3.
Proof. unfold not_earlier. lia. Qed.

Lemma not_earlier_quiet w w' :
  tokens w' = tokens w -> now w' = now w -> not_earlier w w'.
Proof. unfold not_earlier. lia. Qed.

Lemma others_untouched_refl spared w : others_untouched spared w w.
Proof. split; [lia | reflexivity]. Qed.

Lemma others_untouched_trans spared w1 w2 w3 :
  others_untouched spared w1 w2 -> others_untouched spared w2 w3 ->
  others_untouched spared w1 w3.
Proof.
  intros [L1 H1] [L2 H2]. split; [lia|].
  intros a Ha Hlt. rewrite H2 by (assumption || lia). now apply H1.
Qed.

Lemma others_untouched_quiet spared w w' :
  tokens w' = tokens w -> now w' = now w -> others_untouched spared w w'.
Proof. intros Ht _. unfold others_untouched. rewrite Ht. split; [lia | reflexivity]. Qed.

Lemma set_attr_same_time tok upd v : keeps same_time (set_attr tok upd v).
Proof. intros w. destruct tok; reflexivity. Qed.

Lemma set_attr_not_earlier tok upd v : keeps not_earlier (set_attr tok upd v).
Proof. intros w. unfold not_earlier. destruct tok; simpl; lia. Qed.

Lemma set_attr_others_untouched tok upd v :
  keeps (others_untouched (Some tok)) (set_attr tok upd v).
Proof.
  intros w. destruct tok as [a'| |]; try apply others_untouched_refl.
  unfold others_untouched, set_attr, bind, read_token, write_token.
  cbn [fst snd tokens]. split.
  - rewrite length_insert. lia.
  - intros a Ha Hlt. apply list_lookup_insert_ne. congruence.
Qed.

Lemma login_same_time rt self : keeps same_time (login rt self).
Proof. intros w. apply (login_run_bounds rt self w). Qed.

Lemma login_not_earlier rt self : keeps not_earlier (login rt self).
Proof.
  intros w. unfold not_earlier.
  destruct (login_run_bounds rt self w) as (_ & _ & H & _). rewrite H. lia.
Qed.

Lemma login_others_untouched rt self spared :
  keeps (others_untouched spared) (login rt self).
Proof.
  intros w. pose proof (login_all_or_nothing rt self w) as H.
  destruct (login rt self w) as [[a|e] w']; cbn [snd].
  - destruct H as (_ & t & Ht & _). unfold others_untouched.
    rewrite Ht. split.
    + rewrite length_app. lia.
    + intros a0 _ Hlt. now apply lookup_app_l.
  - unfold others_untouched. rewrite H. split; [lia | reflexivity].
Qed.

(** X6. Through the guard, a call touches no Token but the one it was
    given: every other instance that existed before the call reads the
    same after it, whatever the backend answered and whether or not the
    guard logged in again; and no instance goes away. *)
Theorem guard_touches_only_its_token
    (rt : Runtime) (self : Client) (kwargs : Kwargs) (w : World) (a : addr) :
  kw_get "token" kwargs <> Some (ATok a) ->
  a < length (tokens w) ->
  tokens (snd (post_request_with_logging_and_active_session
                 rt self kwargs w)) !! a = tokens w !! a /\
  tokens (snd (get_request_with_logging_and_active_session
                 rt self kwargs w)) !! a = tokens w !! a.
Proof.
  intros Hne Hlt.
  set (R := others_untouched (kw_get "token" kwargs)).
  assert (Hguard : forall func,
            keeps R (func self kwargs) ->
            keeps R (request_with_active_session rt func self kwargs)).
  { intros func Hf.
    apply keeps_request_with_active_session;
      try assumption; unfold R.
    - apply others_untouched_refl.
    - apply others_untouched_trans.
    - apply others_untouched_quiet.
    - apply login_others_untouched.
    - intros tok upd v ->. apply set_attr_others_untouched. }
  assert (Hlog : forall func,
            keeps R (func self kwargs) ->
            keeps R (request_with_logging func self kwargs)).
  { intros func Hf. unfold R.
    apply keeps_request_with_logging;
      [apply others_untouched_refl | apply others_untouched_trans
      | apply others_untouched_quiet | exact Hf]. }
  split.
  - apply (Hguard (request_with_logging (post_request rt))); [|assumption..].
    apply Hlog. unfold R.
    apply keeps_post_request;
      [apply others_untouched_refl | apply others_untouched_trans
      | apply others_untouched_quiet].
  - apply (Hguard (request_with_logging (get_request rt))); [|assumption..].
    apply Hlog. unfold R.
    apply keeps_get_request;
      [apply others_untouched_refl | apply others_untouched_trans
      | apply others_untouched_quiet].
Qed.

Lemma guard_touches_only_its_token_witness :
  let w :=
    mkWorld (fun _ => Answer stubborn_response) 0 [] 1700000000
            [sample_token; Token_unset] [[("vinKey", JList [JStr "key0"])]] in
  let out :=
    post_request_with_logging_and_active_session sample_runtime sample_client
      (post_kwargs 0 "https://api.owners.kia.com/apigw/v1/cmm/gvi" 0) w in
  tokens (snd out) !! 1 = Some Token_unset /\
  logins (trace (snd out)) = 1.
Proof.
  intros w out.
  destruct (guard_touches_only_its_token sample_runtime sample_client
              (post_kwargs 0 "https://api.owners.kia.com/apigw/v1/cmm/gvi" 0)
              w 1) as [H _].
  - discriminate.
  - cbn. lia.
  - split; [exact H | reflexivity].
Defined.




(** X8. The guard recovers from the session-invalid answer only.  When
    the backend cannot be reached, or answers with something that is not
    JSON, the wrapped call is made once, its exception goes to the
    caller, and no login is attempted.  Nor is one attempted when the
    Token's credentials are not fit for headers: the call is refused
    before it is sent. *)
Theorem guard_retries_nothing_else
    (rt : Runtime) (self : Client) (tok : addr) (url : string) (b : addr)
    (w : World) :
  (sendable w tok = true ->
   script w (served w) = Unreachable ->
   let out :=
     post_request_with_logging_and_active_session rt self
       (post_kwargs tok url b) w in
   fst out = Raises ConnectionError /\
   served (snd out) = S (served w) /\
   logins (trace (snd out)) = logins (trace w) /\
   tokens (snd out) = tokens w) /\
  (forall r,
     sendable w tok = true ->
     script w (served w) = Answer r -> json r = None ->
     let out :=
       post_request_with_logging_and_active_session rt self
         (post_kwargs tok url b) w in
     fst out = Raises JSONDecodeError /\
     served (snd out) = S (served w) /\
     logins (trace (snd out)) = logins (trace w) /\
     tokens (snd out) = tokens w) /\
  (sendable w tok = false ->
   let out :=
     post_request_with_logging_and_active_session rt self
       (post_kwargs tok url b) w in
   fst out = Raises InvalidHeader /\
   served (snd out) = served w /\
   logins (trace (snd out)) = logins (trace w) /\
   tokens (snd out) = tokens w).
Proof.
  split; [|split].
  - intros Hok Hs out. unfold out.
    unfold post_request_with_logging_and_active_session,
      request_with_active_session, try_except_AuthError.
    rewrite post_attempt by assumption.
    rewrite Hs. cbn [outcome_of raise is_AuthError fst snd].
    fields. unfold logins. rewrite !tally_app. unfold post_event.
    cbn [tally weigh login_weight].
    repeat split; lia.
  - intros r Hok Hs Hj out. unfold out.
    unfold post_request_with_logging_and_active_session,
      request_with_active_session, try_except_AuthError.
    rewrite post_attempt by assumption. rewrite Hs. cbn [outcome_of].
    unfold check_response, response_json.
    rewrite bind_log, Hj, bind_lift_raises.
    cbn [is_AuthError fst snd]. fields.
    unfold logins. rewrite !tally_app. unfold post_event.
    cbn [tally weigh login_weight].
    repeat split; lia.
  - intros Hok out. unfold out.
    unfold post_request_with_logging_and_active_session,
      request_with_active_session, try_except_AuthError.
    rewrite post_attempt_refused by assumption.
    cbn [is_AuthError fst snd]. fields.
    unfold logins. rewrite !tally_app. cbn [tally weigh].
    repeat split; lia.
Qed.

Lemma guard_retries_nothing_else_witness :
  let out :=
    post_request_with_logging_and_active_session sample_runtime sample_client
      (post_kwargs 0 "https://api.owners.kia.com/apigw/v1/rems/rvs" 0)
      (sample_world [] [sample_token] [[("requestType", JInt 0)]]) in
  fst out = Raises ConnectionError /\ served (snd out) = 1.
Proof.
  intros out.
  destruct (guard_retries_nothing_else sample_runtime sample_client 0
              "https://api.owners.kia.com/apigw/v1/rems/rvs" 0
              (sample_world [] [sample_token] [[("requestType", JInt 0)]]))
    as [H _].
  destruct (H eq_refl eq_refl) as (H1 & H2 & _).
  split; [exact H1 | exact H2].
Defined.



(** ** Cached vehicle status, end to end *)

Lemma bind_read_token {B} a (f : Token -> M B) w :
  bind (read_token a) f w = f (default Token_unset (tokens w !! a)) w.
Proof. reflexivity. Qed.

Lemma bodies_sent_app evs1 evs2 :
  bodies_sent (evs1 ++ evs2) = bodies_sent evs1 ++ bodies_sent evs2.
Proof.
  induction evs1 as [|e evs1 IH]; [reflexivity|].
  destruct e as [| |[] ? ? ? ?]; simpl; now rewrite IH.
Qed.



Section CachedStatus.

Variable rt : Runtime.
Variable self : Client.

Lemma get_cached_vehicle_status_unfold token w :
  get_cached_vehicle_status rt self token w =
  bind
    (post_request_with_logging_and_active_session rt self
       (post_kwargs token (API_URL self +:+ "cmm/gvi") (length (dicts w))))
    (fun response =>
       lift (rbind (response_json response) (normalize rt)))
    (allocated
       (status_request
          (attr vehicle_regid (default Token_unset (tokens w !! token))))
       w).
Proof.
  unfold get_cached_vehicle_status.
  rewrite bind_read_token, bind_new_dict.
  unfold bind, lift, post_kwargs, status_request.
  destruct (post_request_with_logging_and_active_session _ _ _ _)
    as [[response|e] w']; [|reflexivity].
  destruct (response_json response); reflexivity.
Qed.

End CachedStatus.



(** X11. For a Token whose credentials can be sent: when the backend
    accepts the cached-status request and its answer holds every
    section, [get_cached_vehicle_status] returns the normalized record
    after exactly one request, whose body names the vehicle of the
    Token; no Token is changed. *)
Theorem cached_status_returns_normalized
    (rt : Runtime) (self : Client) (token : addr) (w : World)
    (r : Response) (response_body : Json) (s : Sections) :
  sendable w token = true ->
  script w (served w) = Answer r ->
  json r = Some response_body ->
  status_field response_body "statusCode" = Returns (JInt 0) ->
  sections rt response_body = Returns s ->
  let out := get_cached_vehicle_status rt self token w in
  fst out = Returns (normalized s) /\
  served (snd out) = S (served w) /\
  tokens (snd out) = tokens w /\
  bodies_sent (trace (snd out)) =
    bodies_sent (trace w) ++
      [Some (JDict (status_request
                      (attr vehicle_regid
                            (default Token_unset (tokens w !! token)))))].
Proof.
  intros Hok Hs Hj Hc Hsec out. unfold out.
  rewrite get_cached_vehicle_status_unfold.
  set (body := status_request _).
  erewrite bind_returns
    by (apply (post_guard_success rt self _ _ _ _ r response_body);
        [exact Hok | exact Hs | exact Hj | exact Hc]).
  unfold lift, response_json. rewrite Hj, rbind_returns.
  rewrite normalize_sections, Hsec, rbind_returns.
  cbn [fst snd]. fields.
  split; [reflexivity|]. split; [reflexivity|]. split; [reflexivity|].
  rewrite !bodies_sent_app. unfold post_event. cbn [bodies_sent]. fields.
  rewrite lookup_fresh. cbn [from_option id].
  now rewrite !app_nil_r.
Qed.

Lemma cached_status_returns_normalized_witness :
  let out :=
    get_cached_vehicle_status sample_runtime sample_client 0
      (sample_world
         [Answer (mkResponse "{...}" [] (Some (status_body sample_status)))]
         [sample_token] []) in
  subscript_result (fst out) "odometer" =
    Returns (JDict [("value", JInt 12345); ("unit", JInt 3)]) /\
  served (snd out) = 1.
Proof.
  intros out.
  destruct (sections sample_runtime (status_body sample_status))
    as [s|] eqn:Hs; [|discriminate Hs].
  destruct (cached_status_returns_normalized sample_runtime sample_client 0
              (sample_world
                 [Answer (mkResponse "{...}" []
                            (Some (status_body sample_status)))]
                 [sample_token] [])
              (mkResponse "{...}" [] (Some (status_body sample_status)))
              (status_body sample_status) s eq_refl eq_refl eq_refl eq_refl
              Hs)
    as (H1 & H2 & _).
  split; [|exact H2].
  unfold out. rewrite H1. vm_compute in Hs. injection Hs as <-. reflexivity.
Defined.

(** X12. Normalization only adds to what the vendor sent: in the
    status dict it returns, every key other than the eleven it writes
    has the value the vendor gave it (or is absent as before), while
    each of the eleven is there, whatever the vendor had under that
    name. *)
Theorem normalize_keeps_vendor_keys
    (rt : Runtime) (response_body : Json) (s : Sections) :
  sections rt response_body = Returns s ->
  normalize rt response_body = Returns (normalized s) /\
  (forall k, ~ In k added_keys ->
     dict_get k (normalized_status s) = dict_get k (sec_status s)) /\
  (forall k, In k added_keys -> is_Some (dict_get k (normalized_status s))).
Proof.
  intros Hs. split; [now rewrite normalize_sections, Hs|]. split.
  - intros k Hk. unfold normalized_status.
    repeat (rewrite dict_get_set_other;
            [|intros ->; apply Hk; unfold added_keys; simpl; tauto]).
    reflexivity.
  - intros k Hk.
    destruct (normalized_status_keys s)
      as (H1 & H2 & H3 & H4 & H5 & H6 & H7 & H8 & H9 & H10 & H11).
    unfold added_keys in Hk. simpl in Hk.
    repeat (destruct Hk as [<-|Hk]; [eauto|]).
    contradiction.
Qed.

Lemma normalize_keeps_vendor_keys_witness :
  rbind (normalize sample_runtime (status_body sample_status))
        (fun v => rbind (subscript v "vehicleStatus")
                        (fun vs => subscript vs "tirePressure")) =
  Returns (JDict [("all", JInt 0)]).
Proof.
  destruct (sections sample_runtime (status_body sample_status))
    as [s|] eqn:Hs; [|discriminate Hs].
  destruct (normalize_keeps_vendor_keys sample_runtime
              (status_body sample_status) s Hs) as (H1 & H2 & _).
  rewrite H1. cbn [rbind normalized subscript dict_get String.eqb Ascii.eqb
                   Bool.eqb].
  rewrite (H2 "tirePressure").
  - vm_compute in Hs. injection Hs as <-. reflexivity.
  - unfold added_keys. simpl. intuition discriminate.
Defined.

(** X13. A cached-status answer that lists no vehicle makes the
    normalization raise an IndexError, and one that has no payload a
    KeyError: the first lookups fail like any other. *)
Theorem normalize_without_vehicle (rt : Runtime) (response_body : Json) :
  (forall payload,
     subscript response_body "payload" = Returns payload ->
     subscript payload "vehicleInfoList" = Returns (JList []) ->
     normalize rt response_body = Raises IndexError) /\
  (forall d,
     response_body = JDict d -> dict_get "payload" d = None ->
     normalize rt response_body = Raises (KeyError "payload")).
Proof.
  split.
  - intros payload Hp Hl. unfold normalize, vehicle_info.
    now rewrite Hp, rbind_returns, Hl.
  - intros d -> Hd. unfold normalize, vehicle_info, subscript.
    now rewrite Hd.
Qed.

Lemma normalize_without_vehicle_witness :
  normalize sample_runtime
    (JDict [("payload", JDict [("vehicleInfoList", JList [])])]) =
  Raises IndexError.
Proof.
  destruct (normalize_without_vehicle sample_runtime
              (JDict [("payload", JDict [("vehicleInfoList", JList [])])]))
    as [H _].
  exact (H (JDict [("vehicleInfoList", JList [])]) eq_refl eq_refl).
Defined.

(** ** The poller: what it returns, when it stops, how long it waits *)

Lemma bind_inv {A B} (m : M A) (f : A -> M B) w b w' :
  bind m f w = (Returns b, w') ->
  exists a w1, m w = (Returns a, w1) /\ f a w1 = (Returns b, w').
Proof.
  unfold bind. destruct (m w) as [[a|e] w1]; [|discriminate].
  intros H. now exists a, w1.
Qed.

Lemma poll_only_true rt fuel : forall self token xid w b w',
  poll rt fuel self token xid w = (Returns (Some b), w') -> b = true.
Proof.
  induction fuel as [|fuel IH]; intros self token xid w b w' H.
  - discriminate H.
  - cbn [poll] in H.
    apply bind_inv in H. destruct H as (? & w1 & _ & H).
    apply bind_inv in H. destruct H as (body & w2 & _ & H).
    apply bind_inv in H. destruct H as (response & w3 & _ & H).
    apply bind_inv in H. destruct H as (rj & w4 & _ & H).
    apply bind_inv in H. destruct H as (payload & w5 & _ & H).
    apply bind_inv in H. destruct H as (completed & w6 & _ & H).
    destruct completed.
    + now inversion H.
    + eapply IH. exact H.
Qed.

(** X14. The poller has one answer only: whenever
    [check_action_status] returns, it returns [True]; a command that was
    turned down or never confirmed shows as an exception or as a loop
    that goes on, never as [False]. *)
Theorem poller_returns_only_true
    (rt : Runtime) (fuel : nat) (self : Client) (token : addr) (xid : string)
    (w : World) (b : bool) :
  fst (check_action_status rt fuel self token xid w) = Returns (Some b) ->
  b = true.
Proof.
  unfold check_action_status. rewrite bind_sleep.
  destruct (poll rt fuel self token xid (slept 15 w)) as [res w'] eqn:E.
  cbn [fst]. intros ->. eapply poll_only_true. exact E.
Qed.

Lemma poller_returns_only_true_witness :
  fst (check_action_status sample_runtime 5 sample_client 0 "xid-7"
         two_poll_world) = Returns (Some true) /\
  true = true.
Proof.
  split; [reflexivity|].
  apply (poller_returns_only_true sample_runtime 5 sample_client 0 "xid-7"
           two_poll_world true).
  reflexivity.
Defined.

Section PollerEdges.

Variable rt : Runtime.
Variable self : Client.

Lemma post_guard_fatal tok url b w e :
  sendable w tok = true ->
  fatal (script w (served w)) e ->
  post_request_with_logging_and_active_session rt self
    (post_kwargs tok url b) w =
  (Raises e,
   snd (post_request_with_logging_and_active_session rt self
          (post_kwargs tok url b) w)) /\
  served (snd (post_request_with_logging_and_active_session rt self
                 (post_kwargs tok url b) w)) = S (served w).
Proof.
  intros Hok Hf.
  unfold post_request_with_logging_and_active_session,
    request_with_active_session, try_except_AuthError.
  rewrite post_attempt by assumption.
  destruct Hf as [[-> ->] | (r & c & t & e' & -> & He & Hc & Hn & ->)].
  - cbn [outcome_of raise is_AuthError fst snd]. split; reflexivity.
  - cbn [outcome_of].
    rewrite (check_response_unknown _ _ _ _ _ He Hc Hn).
    cbn [is_AuthError fst snd]. split; reflexivity.
Qed.

Lemma poll_round_fatal fuel token xid w e :
  sendable w token = true ->
  fatal (script w (served w)) e ->
  fst (poll rt (S fuel) self token xid w) = Raises e /\
  served (snd (poll rt (S fuel) self token xid w)) = S (served w).
Proof.
  intros Hok Hf. cbn [poll]. rewrite bind_sleep, bind_new_dict.
  change ([("token", ATok token); ("url", AStr (API_URL self +:+ "cmm/gts"));
           ("json_body", ADict (length (dicts (slept 10 w))))])
    with (post_kwargs token (API_URL self +:+ "cmm/gts") (length (dicts w))).
  destruct (post_guard_fatal token (API_URL self +:+ "cmm/gts")
              (length (dicts w))
              (allocated [("xid", JStr xid)] (slept 10 w)) e Hok Hf)
    as [Hrun Hserved].
  erewrite bind_raises by exact Hrun.
  cbn [fst snd]. split; [reflexivity | exact Hserved].
Qed.

Lemma poll_fails n : forall fuel token xid w (polls : nat -> list (string * Z)) e,
  sendable w token = true ->
  (forall i, i < n ->
     exists r, script w (served w + i) = Answer r /\ status_answer r (polls i)) ->
  (forall i, i < n -> all_zero (polls i) = false) ->
  fatal (script w (served w + n)) e ->
  n < fuel ->
  fst (poll rt fuel self token xid w) = Raises e /\
  served (snd (poll rt fuel self token xid w)) = served w + S n.
Proof.
  induction n as [|n IH];
    intros fuel token xid w polls e Hok Hans Hbusy Hf Hfuel.
  - destruct fuel as [|fuel]; [lia|].
    rewrite Nat.add_0_r in Hf.
    destruct (poll_round_fatal fuel token xid w e Hok Hf) as [H1 H2].
    split; [exact H1 | lia].
  - destruct fuel as [|fuel]; [lia|].
    destruct (Hans 0) as (r & Hs & Hr); [lia|].
    rewrite Nat.add_0_r in Hs.
    rewrite (poll_round_run rt self fuel token xid w r _ Hok Hs Hr).
    rewrite (Hbusy 0) by lia.
    destruct (polled_facts rt self token xid r w) as (Hsc & Hsv & _ & Ht & _).
    destruct (IH fuel token xid (polled rt self token xid r w)
                (fun i => polls (S i)) e) as (H1 & H2).
    + now rewrite (sendable_tokens _ _ _ Ht).
    + intros i Hi. rewrite Hsc, Hsv.
      destruct (Hans (S i)) as (r' & Hs' & Hr'); [lia|].
      exists r'. split; [|exact Hr'].
      now rewrite Nat.add_succ_r in Hs'.
    + intros i Hi. apply Hbusy. lia.
    + rewrite Hsc, Hsv. now rewrite Nat.add_succ_r in Hf.
    + lia.
    + split; [exact H1 | lia].
Qed.

End PollerEdges.

(** X15. Polling ends with the first poll that goes wrong: for a Token
    whose credentials can be sent, after [n] polls that each showed a
    sub-check still running, a poll that finds the backend unreachable
    or gets an error envelope (other than the session-invalid one)
    makes [check_action_status] raise that error, and no further poll
    is made. *)
Theorem poller_stops_at_first_error
    (rt : Runtime) (self : Client) (token : addr) (xid : string) (w : World)
    (n fuel : nat) (polls : nat -> list (string * Z)) (e : Exn) :
  sendable w token = true ->
  (forall i, i < n ->
     exists r, script w (served w + i) = Answer r /\ status_answer r (polls i)) ->
  (forall i, i < n -> all_zero (polls i) = false) ->
  fatal (script w (served w + n)) e ->
  n < fuel ->
  fst (check_action_status rt fuel self token xid w) = Raises e /\
  served (snd (check_action_status rt fuel self token xid w)) =
    served w + S n.
Proof.
  intros Hok Hans Hbusy Hf Hfuel.
  unfold check_action_status. rewrite bind_sleep.
  apply (poll_fails rt self n fuel token xid (slept 15 w) polls e);
    assumption.
Qed.

Lemma poller_stops_at_first_error_witness :
  let w :=
    sample_world
      [reply_with 0 0 0 (JDict (codes_payload (two_polls 0))) [];
       reply_with 9 4 500 JNull []]
      [sample_token] [] in
  fst (check_action_status sample_runtime 5 sample_client 0 "xid-7" w) =
    Raises RequestException /\
  served (snd (check_action_status sample_runtime 5 sample_client 0 "xid-7" w))
    = 2.
Proof.
  intros w.
  apply (poller_stops_at_first_error sample_runtime sample_client 0 "xid-7"
           w 1 5 two_polls RequestException).
  - reflexivity.
  - intros i Hi. destruct i as [|i]; [|lia].
    eexists. split; [reflexivity|]. eexists. repeat split; reflexivity.
  - intros i Hi. destruct i; [reflexivity | lia].
  - right. eexists _, 9%Z, 4%Z, 500%Z.
    split; [reflexivity|]. split.
    + eexists. repeat split; reflexivity.
    + repeat split; lia.
  - lia.
Defined.

Lemma post_guard_same_time rt self kwargs :
  keeps same_time
    (post_request_with_logging_and_active_session rt self kwargs).
Proof.
  unfold post_request_with_logging_and_active_session.
  apply keeps_request_with_active_session;
    try solve [apply same_time_refl | apply same_time_trans
              | apply same_time_quiet | apply login_same_time
              | intros; apply set_attr_same_time].
  apply keeps_request_with_logging;
    try solve [apply same_time_refl | apply same_time_trans
              | apply same_time_quiet].
  apply keeps_post_request;
    solve [apply same_time_refl | apply same_time_trans
          | apply same_time_quiet].
Qed.

Lemma get_guard_same_time rt self kwargs :
  keeps same_time
    (get_request_with_logging_and_active_session rt self kwargs).
Proof.
  unfold get_request_with_logging_and_active_session.
  apply keeps_request_with_active_session;
    try solve [apply same_time_refl | apply same_time_trans
              | apply same_time_quiet | apply login_same_time
              | intros; apply set_attr_same_time].
  apply keeps_request_with_logging;
    try solve [apply same_time_refl | apply same_time_trans
              | apply same_time_quiet].
  apply keeps_get_request;
    solve [apply same_time_refl | apply same_time_trans
          | apply same_time_quiet].
Qed.

(** A poll loop that runs at least one round ends at least 10 seconds
    after it began. *)
Lemma poll_waits rt fuel : forall self token xid w,
  (now w + (if fuel is O then 0 else 10) <=
   now (snd (poll rt fuel self token xid w)))%Z.
Proof.
  induction fuel as [|fuel IH]; intros self token xid w.
  - cbn. lia.
  - cbn [poll]. rewrite bind_sleep, bind_new_dict.
    set (kw := [("token", ATok token);
                ("url", AStr (API_URL self +:+ "cmm/gts"));
                ("json_body", ADict (length (dicts (slept 10 w))))]).
    set (w1 := allocated [("xid", JStr xid)] (slept 10 w)).
    assert (Hw1 : now w1 = (now w + 10)%Z) by reflexivity.
    pose proof (post_guard_same_time rt self kw w1) as Hg.
    unfold same_time in Hg. unfold bind at 1.
    destruct (post_request_with_logging_and_active_session rt self kw w1)
      as [[r|e] w2]; cbn [snd] in *; [|lia].
    destruct (response_json r) as [rj|e];
      [rewrite bind_lift_returns | rewrite bind_lift_raises; cbn [snd]; lia].
    destruct (subscript rj "payload") as [payload|e];
      [rewrite bind_lift_returns | rewrite bind_lift_raises; cbn [snd]; lia].
    destruct (all_values_zero payload) as [[|]|e];
      [rewrite bind_lift_returns; cbn [ret snd]; lia
      | rewrite bind_lift_returns
      | rewrite bind_lift_raises; cbn [snd]; lia].
    specialize (IH self token xid w2). destruct fuel; lia.
Qed.

Lemma check_action_status_waits rt fuel self token xid w :
  fst (check_action_status rt fuel self token xid w) <> Returns None ->
  (now w + 25 <= now (snd (check_action_status rt fuel self token xid w)))%Z.
Proof.
  unfold check_action_status. rewrite bind_sleep. intros H.
  destruct fuel as [|fuel]; [exfalso; apply H; reflexivity|].
  pose proof (poll_waits rt (S fuel) self token xid (slept 15 w)) as Hp.
  unfold slept at 1 in Hp. cbn [now] in Hp. lia.
Qed.

(** X16. The poller never answers early: whatever the backend does,
    an outcome of [check_action_status] other than "still polling" (a
    result or an exception) comes at least 25 seconds after it was
    entered, the 15 seconds of the first sleep and the 10 seconds before
    the first poll. *)
Theorem poller_waits_before_answering
    (rt : Runtime) (fuel : nat) (self : Client) (token : addr) (xid : string)
    (w : World) :
  fst (check_action_status rt fuel self token xid w) <> Returns None ->
  (now w + 25 <= now (snd (check_action_status rt fuel self token xid w)))%Z.
Proof. apply check_action_status_waits. Qed.

Lemma poller_waits_before_answering_witness :
  let out :=
    check_action_status sample_runtime 5 sample_client 0 "xid-7"
      (sample_world [] [sample_token] []) in
  fst out = Raises ConnectionError /\
  (1700000000 + 25 <= now (snd out))%Z.
Proof.
  intros out. split; [reflexivity|].
  apply (poller_waits_before_answering sample_runtime 5 sample_client 0
           "xid-7" (sample_world [] [sample_token] [])).
  discriminate.
Defined.

(** ** Commands: what they send, when they give up, how long they take *)

Lemma update_vehicle_status_costs weight rt self token :
  costs weight
    (weight InPostRequest +
     (weight InLoginAuth + weight InLoginVehicles + weight InPostRequest))
    (update_vehicle_status rt self token).
Proof.
  unfold update_vehicle_status.
  apply costs_bind_free; [free_step | intros body].
  apply costs_bind_all; [|intros; free_step].
  apply costs_request_with_active_session.
  apply costs_request_with_logging. apply costs_post_request.
Qed.

(** X17. [update_vehicle_status] is fire and forget: in every world and
    whatever the backend answers, it never sleeps (the clock is where it
    was), it makes at most two transport attempts and at most one
    login. *)
Theorem update_vehicle_status_never_waits
    (rt : Runtime) (self : Client) (token : addr) (w : World) :
  let out := update_vehicle_status rt self token w in
  now (snd out) = now w /\
  attempts (trace (snd out)) <= attempts (trace w) + 2 /\
  logins (trace (snd out)) <= logins (trace w) + 1.
Proof.
  cbv zeta. split; [|split].
  - unfold update_vehicle_status. rewrite bind_new_dict.
    set (kw := [("token", ATok token); _; _]).
    pose proof (post_guard_same_time rt self kw
                  (allocated [("requestType", JInt 0)] w)) as Hg.
    unfold same_time in Hg. unfold bind.
    destruct (post_request_with_logging_and_active_session rt self kw _)
      as [[r|e] w2]; cbn [snd ret] in *; exact Hg.
  - apply (update_vehicle_status_costs attempt_weight rt self token w).
  - apply (update_vehicle_status_costs login_weight rt self token w).
Qed.

Section CommandEdges.

Variable rt : Runtime.
Variable self : Client.

Lemma accepted_without_handle {B} (m : M Response) (k : string -> M B) w r W :
  m w = (Returns r, W) ->
  header_get "Xid" (resp_headers r) = None ->
  bind m (fun response => bind (lift (header_item "Xid" response)) k) w =
  (Raises (KeyError "xid"), W).
Proof.
  intros Hm Hx. erewrite bind_returns by exact Hm.
  unfold header_item. rewrite Hx. apply bind_lift_raises.
Qed.

Lemma attempted_once ev url w logs :
  served (record logs (attempted ev url w)) = S (served w) /\
  now (record logs (attempted ev url w)) = now w.
Proof. unfold attempted. fields. split; reflexivity. Qed.

(** A command that came back with a result has been through the
    poller's sleeps. *)
Lemma command_waits (m : M Response) fuel token w :
  keeps same_time m ->
  let cmd :=
    bind m (fun response =>
      bind (lift (header_item "Xid" response)) (fun xid =>
        bind (check_action_status rt fuel self token xid)
             (fun r => ret (finished r)))) in
  fst (cmd w) = Returns (Some tt) ->
  (now w + 25 <= now (snd (cmd w)))%Z.
Proof.
  intros Hm cmd. subst cmd. cbv beta.
  specialize (Hm w). unfold same_time in Hm.
  destruct (m w) as [[r|e] w1] eqn:E; cbn [snd] in Hm;
    [rewrite (bind_returns _ _ _ _ _ E)
    | rewrite (bind_raises _ _ _ _ _ E); discriminate].
  destruct (header_item "Xid" r) as [xid|e];
    [rewrite bind_lift_returns | rewrite bind_lift_raises; discriminate].
  pose proof (check_action_status_waits rt fuel self token xid w1) as Hc.
  destruct (check_action_status rt fuel self token xid w1)
    as [[[b|]|e] w2] eqn:E2; cbn [fst snd] in Hc;
    [rewrite (bind_returns _ _ _ _ _ E2)
    | rewrite (bind_returns _ _ _ _ _ E2); discriminate
    | rewrite (bind_raises _ _ _ _ _ E2); discriminate].
  cbn [ret fst snd finished]. intros _. rewrite <- Hm. apply Hc. discriminate.
Qed.

End CommandEdges.

(** X18. A command that the backend accepted without naming it is
    lost: for a Token whose credentials can be sent, when the answer to
    the request of [stop_climate], [stop_charge], [start_charge] or
    [start_climate] has status code 0 but no [Xid] header, the command
    raises the KeyError of the case-insensitive header lookup, whose
    key is the lower-cased name [xid], after that one request, without
    a sleep and without a poll. *)
Theorem accepted_command_without_handle
    (rt : Runtime) (self : Client) (fuel : nat) (token : addr) (w : World)
    (r : Response) (rj : Json)
    (set_temp duration defrost climate heating h : Json) :
  sendable w token = true ->
  script w (served w) = Answer r ->
  json r = Some rj ->
  status_field rj "statusCode" = Returns (JInt 0) ->
  header_get "Xid" (resp_headers r) = None ->
  py_int rt heating = Returns h ->
  let lost (out : Result (option unit) * World) :=
    fst out = Raises (KeyError "xid") /\
    served (snd out) = S (served w) /\
    now (snd out) = now w in
  lost (stop_climate rt fuel self token w) /\
  lost (stop_charge rt fuel self token w) /\
  lost (start_charge rt fuel self token w) /\
  lost (start_climate rt fuel self token
          set_temp duration defrost climate heating w).
Proof.
  intros Hok Hs Hj Hc Hx Hh lost. unfold lost.
  split; [|split; [|split]].
  - unfold stop_climate.
    erewrite accepted_without_handle;
      [| apply (get_guard_success rt self token _ w r rj); assumption
       | exact Hx].
    cbn [fst snd]. split; [reflexivity | apply attempted_once].
  - unfold stop_charge.
    erewrite accepted_without_handle;
      [| apply (get_guard_success rt self token _ w r rj); assumption
       | exact Hx].
    cbn [fst snd]. split; [reflexivity | apply attempted_once].
  - unfold start_charge. rewrite bind_new_dict.
    erewrite accepted_without_handle;
      [| apply (post_guard_success rt self token _ (length (dicts w)) _ r rj);
         assumption
       | exact Hx].
    cbn [fst snd]. split; [reflexivity|].
    apply (attempted_once _ _ (allocated _ w)).
  - unfold start_climate.
    rewrite Hh, !bind_lift_returns, bind_new_dict.
    erewrite accepted_without_handle;
      [| apply (post_guard_success rt self token _ (length (dicts w)) _ r rj);
         assumption
       | exact Hx].
    cbn [fst snd]. split; [reflexivity|].
    apply (attempted_once _ _ (allocated _ w)).
Qed.

Lemma accepted_command_without_handle_witness :
  let w := sample_world [reply_with 0 0 0 JNull []] [sample_token] [] in
  fst (stop_charge sample_runtime 5 sample_client 0 w) =
    Raises (KeyError "xid") /\
  served (snd (start_charge sample_runtime 5 sample_client 0 w)) = 1.
Proof.
  intros w.
  destruct (accepted_command_without_handle sample_runtime sample_client 5 0 w
              (mkResponse "..." []
                 (Some (JDict [("status",
                                JDict [("statusCode", JInt 0);
                                       ("errorType", JInt 0);
                                       ("errorCode", JInt 0)]);
                               ("payload", JNull)])))
              (JDict [("status",
                       JDict [("statusCode", JInt 0);
                              ("errorType", JInt 0);
                              ("errorCode", JInt 0)]);
                      ("payload", JNull)])
              (JInt 72) (JInt 10) (JBool false) (JBool true) (JBool true)
              (JInt 1))
    as (_ & (H2 & _) & (_ & H3 & _) & _);
    try reflexivity.
  split; [exact H2 | exact H3].
Defined.

(** X19. No command reports success early: whatever the backend does
    and whatever the world, when [stop_climate], [stop_charge],
    [start_charge] or [start_climate] returns, at least 25 seconds have
    passed since it was called. *)
Theorem commands_return_after_poll
    (rt : Runtime) (self : Client) (fuel : nat) (token : addr) (w : World)
    (set_temp duration defrost climate heating : Json)
    (cmd : M (option unit)) :
  In cmd [stop_climate rt fuel self token;
          stop_charge rt fuel self token;
          start_charge rt fuel self token;
          start_climate rt fuel self token
            set_temp duration defrost climate heating] ->
  fst (cmd w) = Returns (Some tt) ->
  (now w + 25 <= now (snd (cmd w)))%Z.
Proof.
  intros Hin.
  destruct Hin as [<- | [<- | [<- | [<- | []]]]].
  - apply command_waits, get_guard_same_time.
  - apply command_waits, get_guard_same_time.
  - unfold start_charge. rewrite bind_new_dict.
    apply (command_waits rt self _ fuel token (allocated _ w)).
    apply post_guard_same_time.
  - unfold start_climate.
    destruct (py_int rt heating) as [h|e];
      [rewrite !bind_lift_returns
      | rewrite bind_lift_raises; discriminate].
    rewrite bind_new_dict.
    apply (command_waits rt self _ fuel token (allocated _ w)).
    apply post_guard_same_time.
Qed.

Lemma commands_return_after_poll_witness :
  let out := stop_charge sample_runtime 5 sample_client 0 obliging_world in
  fst out = Returns (Some tt) /\
  (1700000000 + 25 <= now (snd out))%Z.
Proof.
  intros out. split; [reflexivity|].
  apply (commands_return_after_poll sample_runtime sample_client 5 0
           obliging_world JNull JNull JNull JNull JNull
           (stop_charge sample_runtime 5 sample_client 0)).
  - right. left. reflexivity.
  - reflexivity.
Defined.

(** X20. [start_climate] coerces [heating] while it builds the body of
    its request: when [int(heating)] raises, [start_climate] raises the
    same exception and the world is as it was, with no request sent, no
    sleep and nothing logged. *)
Theorem start_climate_rejects_heating
    (rt : Runtime) (self : Client) (fuel : nat) (token : addr) (w : World)
    (set_temp duration defrost climate heating : Json) (e : Exn) :
  py_int rt heating = Raises e ->
  start_climate rt fuel self token set_temp duration defrost climate heating w
  = (Raises e, w).
Proof.
  intros Hh. unfold start_climate. rewrite Hh. apply bind_lift_raises.
Qed.

Lemma start_climate_rejects_heating_witness :
  start_climate sample_runtime 5 sample_client 0
    (JInt 72) (JInt 10) (JBool false) (JBool true) (JStr "warm")
    obliging_world
  = (Raises TypeError, obliging_world).
Proof.
  apply (start_climate_rejects_heating sample_runtime sample_client 5 0
           obliging_world (JInt 72) (JInt 10) (JBool false) (JBool true)
           (JStr "warm") TypeError).
  reflexivity.
Defined.

Lemma await_completes rt self n fuel token xid w
    (polls : nat -> list (string * Z)) :
  sendable w token = true ->
  (forall i, i <= n ->
     exists r, script w (served w + i) = Answer r /\ status_answer r (polls i)) ->
  (forall i, i < n -> all_zero (polls i) = false) ->
  all_zero (polls n) = true ->
  n < fuel ->
  let out := await rt self fuel token xid w in
  fst out = Returns (Some tt) /\
  served (snd out) = served w + S n /\
  now (snd out) = (now w + 15 + 10 * Z.of_nat (S n))%Z /\
  steps (trace (snd out)) =
    steps (trace w) ++
      Sleeps 15 :: concat (repeat (poll_round self xid) (S n)).
Proof.
  intros Hok Hans Hbusy Hdone Hfuel. cbv zeta.
  unfold await, check_action_status. rewrite bind_assoc, bind_sleep.
  destruct (poll_completes rt self n fuel token xid (slept 15 w) polls)
    as (H1 & H2 & H3 & _ & H5); try assumption.
  destruct (poll rt fuel self token xid (slept 15 w)) as [res W] eqn:E.
  cbn [fst snd] in H1, H2, H3, H5. subst res.
  rewrite (bind_returns _ _ _ _ _ E). cbn [ret finished fst snd].
  rewrite H2, H3, H5. unfold slept. fields.
  rewrite steps_app. cbn [steps]. rewrite <- app_assoc.
  repeat split; lia.
Qed.

(** X21. [start_climate], from the call to the confirmation, for a
    Token whose credentials can be sent.  When [int(heating)] gives
    [h], the backend accepts the request and names
    it [xid] in the [Xid] header, and the command-status answers show a
    sub-check still running [n] times and then only zeros, the command
    returns after [n + 2] requests and [25 + 10 n] seconds.  It has
    posted to [rems/start] one body with the temperature as a string
    under unit code 1, the duration under unit code 4 and [h] for each
    of the three heated accessories, slept 15 seconds, and then polled
    [cmm/gts] with [xid] every 10 seconds. *)
Theorem start_climate_timeline
    (rt : Runtime) (self : Client) (fuel : nat) (token : addr) (w : World)
    (set_temp duration defrost climate heating h : Json)
    (r : Response) (rj : Json) (xid : string)
    (n : nat) (polls : nat -> list (string * Z)) :
  py_int rt heating = Returns h ->
  sendable w token = true ->
  script w (served w) = Answer r ->
  json r = Some rj ->
  status_field rj "statusCode" = Returns (JInt 0) ->
  header_get "Xid" (resp_headers r) = Some xid ->
  (forall i, i <= n ->
     exists r', script w (S (served w) + i) = Answer r' /\
                status_answer r' (polls i)) ->
  (forall i, i < n -> all_zero (polls i) = false) ->
  all_zero (polls n) = true ->
  n < fuel ->
  let out :=
    start_climate rt fuel self token
      set_temp duration defrost climate heating w in
  fst out = Returns (Some tt) /\
  served (snd out) = served w + 2 + n /\
  now (snd out) = (now w + 25 + 10 * Z.of_nat n)%Z /\
  steps (trace (snd out)) =
    steps (trace w) ++
      Sends InPostRequest (API_URL self +:+ "rems/start")
        (Some (JDict
           [("remoteClimate",
             JDict [("airCtrl", climate);
                    ("airTemp",
                     JDict [("unit", JInt 1);
                            ("value", JStr (py_str rt set_temp))]);
                    ("defrost", defrost);
                    ("heatingAccessory",
                     JDict [("rearWindow", h); ("sideMirror", h);
                            ("steeringWheel", h)]);
                    ("ignitionOnDuration",
                     JDict [("unit", JInt 4); ("value", duration)])])]))
      :: Sleeps 15 :: concat (repeat (poll_round self xid) (S n)).
Proof.
  intros Hh Hok Hs Hj Hc Hx Hans Hbusy Hdone Hfuel. cbv zeta.
  rewrite (start_climate_hands_handle_to_poller rt self fuel token
             set_temp duration defrost climate heating h w r rj xid
             Hh Hok Hs Hj Hc Hx).
  match goal with
  | |- context [await rt self fuel token xid ?W] => set (w2 := W)
  end.
  assert (Hsc : script w2 = script w) by (unfold w2, attempted, allocated; now fields).
  assert (Hsv : served w2 = S (served w)) by (unfold w2, attempted, allocated; now fields).
  assert (Hn : now w2 = now w) by (unfold w2, attempted, allocated; now fields).
  assert (Hst : steps (trace w2) =
                steps (trace w) ++
                  [Sends InPostRequest (API_URL self +:+ "rems/start")
                     (Some (JDict
                        [("remoteClimate",
                          JDict [("airCtrl", climate);
                                 ("airTemp",
                                  JDict [("unit", JInt 1);
                                         ("value", JStr (py_str rt set_temp))]);
                                 ("defrost", defrost);
                                 ("heatingAccessory",
                                  JDict [("rearWindow", h); ("sideMirror", h);
                                         ("steeringWheel", h)]);
                                 ("ignitionOnDuration",
                                  JDict [("unit", JInt 4);
                                         ("value", duration)])])]))]).
  { unfold w2, attempted, allocated. fields.
    rewrite !steps_app. unfold post_event. cbn [steps]. fields.
    rewrite lookup_fresh. cbn [from_option id app].
    now rewrite <- !app_assoc. }
  destruct (await_completes rt self n fuel token xid w2 polls)
    as (H1 & H2 & H3 & H4);
    [exact Hok | intros i Hi; rewrite Hsc, Hsv; now apply Hans
    | assumption..|].
  rewrite H1, H2, H3, H4, Hsv, Hn, Hst. rewrite <- app_assoc.
  cbn [app]. repeat split; lia.
Qed.

Lemma start_climate_timeline_witness :
  let out :=
    start_climate sample_runtime 5 sample_client 0
      (JInt 72) (JInt 10) (JBool false) (JBool true) (JBool true)
      obliging_world in
  fst out = Returns (Some tt) /\
  served (snd out) = 2 /\
  now (snd out) = 1700000025%Z.
Proof.
  intros out.
  destruct (start_climate_timeline sample_runtime sample_client 5 0
              obliging_world
              (JInt 72) (JInt 10) (JBool false) (JBool true) (JBool true)
              (JInt 1)
              (mkResponse "..." [("Xid", "xid-7")]
                 (Some (JDict [("status",
                                JDict [("statusCode", JInt 0);
                                       ("errorType", JInt 0);
                                       ("errorCode", JInt 0)]);
                               ("payload", JNull)])))
              (JDict [("status",
                       JDict [("statusCode", JInt 0);
                              ("errorType", JInt 0);
                              ("errorCode", JInt 0)]);
                      ("payload", JNull)])
              "xid-7" 0 (fun _ => [("ok", 0%Z)]))
    as (H1 & H2 & H3 & _); try reflexivity.
  - intros i Hi. destruct i as [|i]; [|lia].
    eexists. split; [reflexivity|]. eexists.
    split; [reflexivity|]. split; reflexivity.
  - intros i Hi. lia.
  - lia.
  - split; [exact H1|]. split; [exact H2 | exact H3].
Defined.

(** ** Reverse geocoding *)

(** X22. A USA client never gives the user's e-mail address to the
    geocoder.  Its constructor stores the pin where the base class
    keeps the geocode flag, and a pin that is a string (or left out) is
    never equal to [True]: whatever was passed for
    [use_email_with_geocode_api], the URL asked for ends after the zoom
    parameter. *)
Theorem usa_client_geocodes_without_email
    (rt : Runtime) (u p r b : Json) (flag : option Json)
    (pn : option string) (rnd1 rnd2 : string) (lat lon : Json) :
  geocode_url rt
    (KiaUvoAPIUSA_init u p r b flag (option_map JStr pn) rnd1 rnd2) lat lon
  = Returns ("https://nominatim.openstreetmap.org/reverse?lat="
             +:+ py_str rt lat +:+ "&lon=" +:+ py_str rt lon
             +:+ "&format=json&addressdetails=1&zoom=18").
Proof.
  unfold geocode_url, KiaUvoAPIUSA_init, with_endpoints, KiaUvoApiImpl_init.
  cbn [use_email_with_geocode_api username].
  destruct pn as [s|]; cbn [option_map from_option id py_eq_true rbind];
    repeat f_equal.
Qed.

(** ** The guard inside the poller *)



(** ** A Token that cannot be sent *)

Section Unsendable.

Variable rt : Runtime.
Variable self : Client.

Lemma post_guard_refused tok url b w :
  sendable w tok = false ->
  post_request_with_logging_and_active_session rt self
    (post_kwargs tok url b) w =
  (Raises InvalidHeader, record [ELog Debug (LSending (AStr url))] w).
Proof.
  intros Hok.
  unfold post_request_with_logging_and_active_session,
    request_with_active_session, try_except_AuthError.
  now rewrite post_attempt_refused by assumption.
Qed.

Lemma get_guard_refused tok url w :
  sendable w tok = false ->
  get_request_with_logging_and_active_session rt self (get_kwargs tok url) w =
  (Raises InvalidHeader, record [ELog Debug (LSending (AStr url))] w).
Proof.
  intros Hok.
  unfold get_request_with_logging_and_active_session,
    request_with_active_session, try_except_AuthError.
  now rewrite get_attempt_refused by assumption.
Qed.

Lemma refused_logged {A} w w' url e :
  served w' = served w -> tokens w' = tokens w -> e = InvalidHeader ->
  refused w (@pair (Result A) World (Raises e)
               (record [ELog Debug (LSending (AStr url))] w')).
Proof.
  intros Hs Ht ->. unfold refused. cbn [fst snd]. fields.
  split; [reflexivity|]. split; assumption.
Qed.

End Unsendable.

(** X24. With a Token whose access token or registration identifier is
    not fit for a header (neither a string nor [None]), nothing reaches
    the backend: the cached-status request, the status update and the
    four working commands are refused by [requests] before they are
    sent, and so is the first poll of [check_action_status], after its
    sleeps.  Each raises InvalidHeader with no request made, no login
    attempted and the Tokens as they were. *)
Theorem unsendable_token_is_refused
    (rt : Runtime) (self : Client) (fuel : nat) (token : addr) (xid : string)
    (w : World) (set_temp duration defrost climate heating h : Json) :
  sendable w token = false ->
  py_int rt heating = Returns h ->
  0 < fuel ->
  refused w (get_cached_vehicle_status rt self token w) /\
  refused w (update_vehicle_status rt self token w) /\
  refused w (stop_climate rt fuel self token w) /\
  refused w (stop_charge rt fuel self token w) /\
  refused w (start_charge rt fuel self token w) /\
  refused w (start_climate rt fuel self token
               set_temp duration defrost climate heating w) /\
  refused w (check_action_status rt fuel self token xid w) /\
  now (snd (check_action_status rt fuel self token xid w)) = (now w + 25)%Z.
Proof.
  intros Hok Hh Hfuel.
  assert (Hpost : forall url d,
            post_request_with_logging_and_active_session rt self
              (post_kwargs token url (length (dicts w))) (allocated d w) =
            (Raises InvalidHeader,
             record [ELog Debug (LSending (AStr url))] (allocated d w))).
  { intros url d. apply post_guard_refused. exact Hok. }
  split; [|split; [|split; [|split; [|split; [|split; [|split]]]]]].
  - rewrite get_cached_vehicle_status_unfold.
    erewrite bind_raises by apply Hpost.
    now apply refused_logged.
  - unfold update_vehicle_status. rewrite bind_new_dict.
    erewrite bind_raises by apply Hpost.
    now apply refused_logged.
  - unfold stop_climate.
    erewrite bind_raises
      by (apply (get_guard_refused rt self token _ w); exact Hok).
    now apply refused_logged.
  - unfold stop_charge.
    erewrite bind_raises
      by (apply (get_guard_refused rt self token _ w); exact Hok).
    now apply refused_logged.
  - unfold start_charge. rewrite bind_new_dict.
    erewrite bind_raises by apply Hpost.
    now apply refused_logged.
  - unfold start_climate. rewrite Hh, !bind_lift_returns, bind_new_dict.
    erewrite bind_raises by apply Hpost.
    now apply refused_logged.
  - unfold check_action_status. rewrite bind_sleep.
    destruct fuel as [|fuel]; [lia|].
    cbn [poll]. rewrite bind_sleep, bind_new_dict.
    erewrite bind_raises
      by (apply (post_guard_refused rt self token _ (length (dicts w))
                   (allocated [("xid", JStr xid)] (slept 10 (slept 15 w))));
          exact Hok).
    now apply refused_logged.
  - unfold check_action_status. rewrite bind_sleep.
    destruct fuel as [|fuel]; [lia|].
    cbn [poll]. rewrite bind_sleep, bind_new_dict.
    erewrite bind_raises
      by (apply (post_guard_refused rt self token _ (length (dicts w))
                   (allocated [("xid", JStr xid)] (slept 10 (slept 15 w))));
          exact Hok).
    cbn [snd]. unfold allocated, slept. fields. lia.
Qed.

Lemma unsendable_token_is_refused_witness :
  let w :=
    sample_world [reply_with 0 0 0 JNull [("Xid", "xid-7")]]
      [with_vehicle_regid (JInt 7) sample_token] [] in
  fst (stop_charge sample_runtime 5 sample_client 0 w) =
    Raises InvalidHeader /\
  served (snd (stop_charge sample_runtime 5 sample_client 0 w)) = 0.
Proof.
  intros w.
  destruct (unsendable_token_is_refused sample_runtime sample_client 5 0
              "xid-7" w (JInt 72) (JInt 10) (JBool false) (JBool true)
              (JBool true) (JInt 1))
    as (_ & _ & _ & (H1 & H2 & _) & _).
  - reflexivity.
  - reflexivity.
  - lia.
  - split; [exact H1 | exact H2].
Defined.
